(** * eth-portfolio: the balance containers and the address snapshot

    A shallow embedding of [eth_portfolio/typing.py] (Balance,
    TokenBalances, WalletBalances, PortfolioBalances, WalletBalancesRaw,
    PortfolioBalancesByCategory) and of the snapshot functions of
    [eth_portfolio/address.py] ([_calc_value], [_eth_balance_async],
    [_token_balances_async], [_balances_async],
    [_external_balances_async], [_describe_async]).

    Conventions of the embedding:
    - a Python [dict] compared with [==] is a [gmap]: equality of dicts
      ignores insertion order, and so does Leibniz equality of [gmap];
    - a loop [for k, v in d.items()] is a [map_fold]; every loop embedded
      here reads and writes its state under the key of the iteration only,
      so what it builds does not depend on the order of the items;
    - a method that changes [self] returns the new [self] next to its
      result; [cached_property] is read at its first evaluation;
    - an address key is the number it denotes ([N]), so the checksum
      normalisation of [checksum_dict] is the identity on keys;
    - a category key is the Python string the caller passes;
    - the [Decimal] fields of a [Balance] are kept by their numeric value
      ([Qc]); [Decimal.__eq__] is numeric.  [Balance.__add__] and
      [Balance.__sub__] are the exact sum and difference, which [Decimal]
      rounds to the 28 digits of its context: the statements about stored
      balances are about copies and about sums and differences of zeros,
      which are not rounded;
    - the [Decimal] products and roundings of address.py, where the
      context precision matters, are computed on coefficient/exponent
      pairs in module [Decimal];
    - a raised exception is the [Raise] case of [result]; where two items
      of one loop would raise different exceptions, which of them is
      raised depends on the order of the items, and the statements are
      about the cases where it does not. *)

From stdpp Require Import base option numbers strings list gmap fin_maps.
From Stdlib Require Import ZArith QArith Qcanon Lia Permutation.

Local Open Scope Z_scope.

(** ** Exceptions *)

Inductive exn : Type :=
  | AssertionError
  | KeyError
  | TypeError
  | InvalidOperation
  | AttributeError.

Inductive result (A : Type) : Type :=
  | Ok (a : A)
  | Raise (e : exn).
Arguments Ok {A} a.
Arguments Raise {A} e.

Global Instance result_ret : MRet result := λ A a, Ok a.
Global Instance result_bind : MBind result := λ A B f r,
  match r with
  | Ok a => f a
  | Raise e => Raise e
  end.

Global Instance result_fmap : FMap result := λ A B f r,
  match r with
  | Ok a => Ok (f a)
  | Raise e => Raise e
  end.

Definition is_Ok {A} (r : result A) : bool :=
  match r with Ok _ => true | Raise _ => false end.

Global Instance exn_eq_dec : EqDecision exn.
Proof. solve_decision. Defined.

(** What a loop that deletes from the dict it iterates comes to: its normal
    end, or [RuntimeError: dictionary changed size during iteration]. *)
Inductive iteration (A : Type) : Type :=
  | Finished (a : A)
  | RuntimeError.
Arguments Finished {A} a.
Arguments RuntimeError {A}.

(** [for key, value in d.items(): if not value: del d[key]], over the
    items [items] still to come.  At every step, the one that would stop
    included, the iterator compares the size of the dict with [used], the
    size it had when the loop began. *)
Fixpoint prune_loop `{Countable K} {V : Type} (truthy : V → bool)
    (items : list (K * V)) (used : nat) (d : gmap K V)
    : iteration (gmap K V) :=
  if bool_decide (size d ≠ used) then RuntimeError
  else
    match items with
    | [] => Finished d
    | (key, value) :: items =>
        prune_loop truthy items used
          (if truthy value then d else delete key d)
    end.

(** ** Balance *)

Module Balance.

(** [@dataclass class Balance]: the fields [balance] and [usd_value],
    both defaulting to [Decimal()]. *)
Record t : Type := mk { balance : Qc; usd_value : Qc }.

Definition default : t := mk 0%Qc 0%Qc.

Definition usd (self : t) : Qc := usd_value self.

Definition __add__ (self other : t) : t :=
  mk (balance self + balance other)%Qc (usd_value self + usd_value other)%Qc.

Definition __sub__ (self other : t) : t :=
  mk (balance self - balance other)%Qc (usd_value self - usd_value other)%Qc.

Definition __bool__ (self : t) : bool :=
  negb (bool_decide (balance self = 0%Qc))
  || negb (bool_decide (usd_value self = 0%Qc)).

Global Instance eq_dec : EqDecision t.
Proof. solve_decision. Defined.

End Balance.

(** ** TokenBalances *)

Abbreviation Address := N (only parsing).

Module TokenBalances.

(** [class TokenBalances(DefaultChecksumDict[Balance])]: token -> balance. *)
Abbreviation t := (gmap N Balance.t) (only parsing).

(** [DefaultChecksumDict.__getitem__]: a missing key is filled with the
    default factory's value, which is stored and returned. *)
Definition __getitem__ (self : t) (key : Address) : Balance.t * t :=
  match self !! key with
  | Some v => (v, self)
  | None => (Balance.default, <[key := Balance.default]> self)
  end.

Definition __setitem__ (self : t) (key : Address) (value : Balance.t) : t :=
  <[key := value]> self.

(** [_setattr_nochecksum] is the item assignment of [checksum_dict] that
    skips the normalisation of the key. *)
Definition _setattr_nochecksum (self : t) (key : Address) (value : Balance.t) : t :=
  <[key := value]> self.

(** [combined.__getattr_nochecksum(token)], as the body of [class
    TokenBalances] has it: a name with two leading underscores written
    inside a class body is mangled with the name of that class, here to
    [_TokenBalances__getattr_nochecksum], an attribute that no class of
    the object defines.  The attribute lookup raises [AttributeError]. *)
Definition __getattr_nochecksum (self : t) (key : Address) : result Balance.t :=
  Raise AttributeError.

(** [self[token] += balance] *)
Definition iadd_item (self : t) (token : Address) (balance : Balance.t) : t :=
  let '(old, self1) := __getitem__ self token in
  __setitem__ self1 token (Balance.__add__ old balance).

Definition __init__ (seed : list (Address * Balance.t)) : t :=
  foldl (λ self '(token, balance), iadd_item self token balance) ∅ seed.

Definition sum_usd (self : t) : Qc :=
  map_fold (λ _ balance acc, (acc + Balance.usd balance)%Qc) 0%Qc self.

Definition __bool__ (self : t) : bool :=
  map_fold (λ _ balance acc, Balance.__bool__ balance || acc) false self.

Definition add_loop1 (token : Address) (balance : Balance.t) (combined : t) : t :=
  if Balance.__bool__ balance
  then _setattr_nochecksum combined token
         (Balance.mk (Balance.balance balance) (Balance.usd_value balance))
  else combined.

Definition add_loop2 (token : Address) (balance : Balance.t)
    (acc : result t) : result t :=
  combined ← acc;
  if Balance.__bool__ balance
  then
    if bool_decide (is_Some (combined !! token))
    then
      old ← __getattr_nochecksum combined token;
      Ok (_setattr_nochecksum combined token (Balance.__add__ old balance))
    else
      Ok (_setattr_nochecksum combined token
            (Balance.mk (Balance.balance balance) (Balance.usd_value balance)))
  else Ok combined.

Definition __add__ (self other : t) : result t :=
  let combined : t := ∅ in
  let combined := map_fold add_loop1 combined self in
  let combined := map_fold add_loop2 (Ok combined) other in
  combined.

(** [self[token] -= balance] *)
Definition isub_item (self : t) (token : Address) (balance : Balance.t) : t :=
  let '(old, self1) := __getitem__ self token in
  __setitem__ self1 token (Balance.__sub__ old balance).

Definition __sub__ (self other : t) : iteration t :=
  let subtracted : t := __init__ (map_to_list self) in
  let subtracted :=
    map_fold (λ token balance subtracted, isub_item subtracted token balance)
      subtracted other in
  prune_loop Balance.__bool__ (map_to_list subtracted) (size subtracted)
    subtracted.

End TokenBalances.

(** ** WalletBalances *)

Module WalletBalances.

(** [class WalletBalances(DefaultDict[CategoryLabel, TokenBalances])]:
    category -> token -> balance.  The keys are the strings the callers
    pass; [__validateitem] is what restricts them. *)
Abbreviation t := (gmap string (gmap N Balance.t)) (only parsing).

Definition __validateitem (key : string) : result unit :=
  if bool_decide (key ∉ ["assets"; "debt"]%string)
  then Raise KeyError
  else Ok ().

Definition __setitem__ (self : t) (key : string) (value : TokenBalances.t)
    : result t :=
  _ ← __validateitem key;
  Ok (<[key := value]> self).

(** [defaultdict.__getitem__]: a missing key goes through [__missing__],
    which stores the factory's [TokenBalances()] with [self[key] = value]
    and returns it. *)
Definition __getitem__ (self : t) (key : string)
    : result (TokenBalances.t * t) :=
  _ ← __validateitem key;
  match self !! key with
  | Some v => Ok (v, self)
  | None =>
      self1 ← __setitem__ self key (∅ : TokenBalances.t);
      Ok (∅, self1)
  end.

Definition assets (self : t) : result (TokenBalances.t * t) :=
  __getitem__ self "assets".

Definition debt (self : t) : result (TokenBalances.t * t) :=
  __getitem__ self "debt".

Definition sum_usd (self : t) : result (Qc * t) :=
  '(a, self1) ← assets self;
  '(b, self2) ← debt self1;
  Ok ((TokenBalances.sum_usd a - TokenBalances.sum_usd b)%Qc, self2).

Definition __bool__ (self : t) : bool :=
  map_fold (λ _ balances acc, TokenBalances.__bool__ balances || acc) false self.

(** [self[category] += balances] *)
Definition iadd_item (self : t) (category : string)
    (balances : TokenBalances.t) : result t :=
  '(old, self1) ← __getitem__ self category;
  new ← TokenBalances.__add__ old balances;
  __setitem__ self1 category new.

Definition __init__ (seed : list (string * TokenBalances.t)) : result t :=
  foldl (λ acc '(category, balances),
           self ← acc; iadd_item self category balances)
        (Ok ∅) seed.

Definition add_loop (category : string) (balances : TokenBalances.t)
    (acc : result t) : result t :=
  combined ← acc;
  if TokenBalances.__bool__ balances
  then iadd_item combined category balances
  else Ok combined.

Definition __add__ (self other : t) : result t :=
  let combined : result t := Ok ∅ in
  let combined := map_fold add_loop combined self in
  let combined := map_fold add_loop combined other in
  combined.

(** [self[category] -= balances]: the item read, the difference of the
    two TokenBalances, and the item assignment.  The exceptions of [exn]
    are the [Raise] case; the [RuntimeError] of an iteration is the value
    [Ok RuntimeError]. *)
Definition isub_item (self : t) (category : string)
    (balances : TokenBalances.t) : result (iteration t) :=
  '(old, self1) ← __getitem__ self category;
  match TokenBalances.__sub__ old balances with
  | Finished new =>
      self2 ← __setitem__ self1 category new;
      Ok (Finished self2)
  | RuntimeError => Ok RuntimeError
  end.

Definition sub_loop (category : string) (balances : TokenBalances.t)
    (acc : result (iteration t)) : result (iteration t) :=
  subtracted ← acc;
  match subtracted with
  | Finished subtracted => isub_item subtracted category balances
  | RuntimeError => Ok RuntimeError
  end.

Definition __sub__ (self other : t) : result (iteration t) :=
  subtracted ← __init__ (map_to_list self);
  subtracted ← map_fold sub_loop (Ok (Finished subtracted)) other;
  match subtracted with
  | Finished subtracted =>
      Ok (prune_loop TokenBalances.__bool__ (map_to_list subtracted)
            (size subtracted) subtracted)
  | RuntimeError => Ok RuntimeError
  end.

End WalletBalances.

(** ** WalletBalancesRaw *)

Module WalletBalancesRaw.

(** [class WalletBalancesRaw(DefaultChecksumDict[TokenBalances])]:
    wallet -> token -> balance. *)
Abbreviation t := (gmap N (gmap N Balance.t)) (only parsing).

Definition __getitem__ (self : t) (key : Address) : TokenBalances.t * t :=
  match self !! key with
  | Some v => (v, self)
  | None => (∅, <[key := ∅]> self)
  end.

Definition __setitem__ (self : t) (key : Address) (value : TokenBalances.t) : t :=
  <[key := value]> self.

(** [self[wallet] += balances] *)
Definition iadd_item (self : t) (wallet : Address)
    (balances : TokenBalances.t) : result t :=
  let '(old, self1) := __getitem__ self wallet in
  new ← TokenBalances.__add__ old balances;
  Ok (__setitem__ self1 wallet new).

Definition __bool__ (self : t) : bool :=
  map_fold (λ _ balances acc, TokenBalances.__bool__ balances || acc) false self.

Definition _setattr_nochecksum (self : t) (key : Address)
    (value : TokenBalances.t) : t :=
  <[key := value]> self.

(** [combined.__getattr_nochecksum(wallet)] inside [class
    WalletBalancesRaw]: the name is mangled to
    [_WalletBalancesRaw__getattr_nochecksum], which no class of the object
    defines; the attribute lookup raises [AttributeError]. *)
Definition __getattr_nochecksum (self : t) (key : Address)
    : result TokenBalances.t :=
  Raise AttributeError.

Definition add_loop (wallet : Address) (balance : TokenBalances.t)
    (acc : result t) : result t :=
  combined ← acc;
  if TokenBalances.__bool__ balance
  then
    old ← __getattr_nochecksum combined wallet;
    new ← TokenBalances.__add__ old balance;
    Ok (_setattr_nochecksum combined wallet new)
  else Ok combined.

Definition __add__ (self other : t) : result t :=
  let combined : result t := Ok ∅ in
  let combined := map_fold add_loop combined self in
  let combined := map_fold add_loop combined other in
  combined.

End WalletBalancesRaw.

(** ** PortfolioBalancesByCategory and PortfolioBalances *)

Module PortfolioBalancesByCategory.

(** [class PortfolioBalancesByCategory(DefaultDict[CategoryLabel,
    WalletBalancesRaw])]: category -> wallet -> token -> balance.
    Unlike [WalletBalances] it does not validate its keys. *)
Abbreviation t := (gmap string (gmap N (gmap N Balance.t))) (only parsing).

Definition __getitem__ (self : t) (key : string) : WalletBalancesRaw.t * t :=
  match self !! key with
  | Some v => (v, self)
  | None => (∅, <[key := ∅]> self)
  end.

Definition __setitem__ (self : t) (key : string) (value : WalletBalancesRaw.t) : t :=
  <[key := value]> self.

Definition __bool__ (self : t) : bool :=
  map_fold (λ _ balances acc, WalletBalancesRaw.__bool__ balances || acc) false self.

(** [self[protocol] += balances] *)
Definition iadd_item (self : t) (protocol : string)
    (balances : WalletBalancesRaw.t) : result t :=
  let '(old, self1) := __getitem__ self protocol in
  new ← WalletBalancesRaw.__add__ old balances;
  Ok (__setitem__ self1 protocol new).

Definition add_loop (protocol : string) (balances : WalletBalancesRaw.t)
    (acc : result t) : result t :=
  combined ← acc;
  if WalletBalancesRaw.__bool__ balances
  then iadd_item combined protocol balances
  else Ok combined.

Definition __add__ (self other : t) : result t :=
  let combined : result t := Ok ∅ in
  let combined := map_fold add_loop combined self in
  let combined := map_fold add_loop combined other in
  combined.

End PortfolioBalancesByCategory.

Module PortfolioBalances.

(** [class PortfolioBalances(DefaultChecksumDict[WalletBalances])]:
    wallet -> category -> token -> balance. *)
Abbreviation t := (gmap N (gmap string (gmap N Balance.t))) (only parsing).

Definition __getitem__ (self : t) (key : Address) : WalletBalances.t * t :=
  match self !! key with
  | Some v => (v, self)
  | None => (∅, <[key := ∅]> self)
  end.

Definition __setitem__ (self : t) (key : Address) (value : WalletBalances.t) : t :=
  <[key := value]> self.

Definition __bool__ (self : t) : bool :=
  map_fold (λ _ balances acc, WalletBalances.__bool__ balances || acc) false self.

Definition _setattr_nochecksum (self : t) (key : Address)
    (value : WalletBalances.t) : t :=
  <[key := value]> self.

(** [combined.__getattr_nochecksum(wallet)] inside [class
    PortfolioBalances]: the name is mangled to
    [_PortfolioBalances__getattr_nochecksum], which no class of the object
    defines; the attribute lookup raises [AttributeError]. *)
Definition __getattr_nochecksum (self : t) (key : Address)
    : result WalletBalances.t :=
  Raise AttributeError.

Definition add_loop (wallet : Address) (balance : WalletBalances.t)
    (acc : result t) : result t :=
  combined ← acc;
  if WalletBalances.__bool__ balance
  then
    old ← __getattr_nochecksum combined wallet;
    new ← WalletBalances.__add__ old balance;
    Ok (_setattr_nochecksum combined wallet new)
  else Ok combined.

Definition __add__ (self other : t) : result t :=
  let combined : result t := Ok ∅ in
  let combined := map_fold add_loop combined self in
  let combined := map_fold add_loop combined other in
  combined.

(** [inverted[label][wallet] += tbalances].  [inverted[label]] is the
    object stored in [inverted] (inserted first when missing), so the
    item assignment on it is seen through [inverted]. *)
Definition inverted_step (wallet : Address) (label : string)
    (tbalances : TokenBalances.t) (inverted : PortfolioBalancesByCategory.t)
    : result PortfolioBalancesByCategory.t :=
  let '(raw, inverted1) := PortfolioBalancesByCategory.__getitem__ inverted label in
  raw1 ← WalletBalancesRaw.iadd_item raw wallet tbalances;
  Ok (<[label := raw1]> inverted1).

Definition inverted_inner (wallet : Address) (label : string)
    (tbalances : TokenBalances.t)
    (acc : result PortfolioBalancesByCategory.t)
    : result PortfolioBalancesByCategory.t :=
  inverted ← acc;
  if TokenBalances.__bool__ tbalances
  then inverted_step wallet label tbalances inverted
  else Ok inverted.

Definition inverted_outer (wallet : Address) (wbalances : WalletBalances.t)
    (acc : result PortfolioBalancesByCategory.t)
    : result PortfolioBalancesByCategory.t :=
  map_fold (inverted_inner wallet) acc wbalances.

Definition inverted (self : t) : result PortfolioBalancesByCategory.t :=
  let inverted : result PortfolioBalancesByCategory.t := Ok ∅ in
  map_fold inverted_outer inverted self.

End PortfolioBalances.

Module PortfolioBalancesByCategory_invert.

(** [PortfolioBalancesByCategory.invert], placed after [PortfolioBalances]
    which it builds.  [inverted[wallet][label] += tbalances]:
    [inverted[wallet]] is the [WalletBalances] stored in [inverted]
    (inserted first when missing); the item read and the item assignment
    on it both validate [label]. *)
Definition invert_step (label : string) (wallet : Address)
    (tbalances : TokenBalances.t) (inverted : PortfolioBalances.t)
    : result PortfolioBalances.t :=
  let '(wb, inverted1) := PortfolioBalances.__getitem__ inverted wallet in
  wb1 ← WalletBalances.iadd_item wb label tbalances;
  Ok (<[wallet := wb1]> inverted1).

Definition invert_inner (label : string) (wallet : Address)
    (tbalances : TokenBalances.t) (acc : result PortfolioBalances.t)
    : result PortfolioBalances.t :=
  inverted ← acc;
  if TokenBalances.__bool__ tbalances
  then invert_step label wallet tbalances inverted
  else Ok inverted.

Definition invert_outer (label : string) (wtbalances : WalletBalancesRaw.t)
    (acc : result PortfolioBalances.t) : result PortfolioBalances.t :=
  map_fold (invert_inner label) acc wtbalances.

Definition invert (self : PortfolioBalancesByCategory.t)
    : result PortfolioBalances.t :=
  let inverted : result PortfolioBalances.t := Ok ∅ in
  map_fold invert_outer inverted self.

End PortfolioBalancesByCategory_invert.

(** ** Decimal, under the default context of Python's [decimal] *)

Module Decimal.

(** A finite [Decimal]: the signed coefficient and the exponent, for the
    number [coef * 10 ^ exp].  Python keeps the sign apart from the
    digits; roundings below act on the magnitude and restore the sign.
    The exponent limits [Emin] and [Emax] (six digits long) are not
    modelled. *)
Record t : Type := mk { coef : Z; exp : Z }.

(** [getcontext().prec] *)
Definition prec : Z := 28.

Fixpoint ndigits_fuel (fuel : nat) (n : Z) : Z :=
  match fuel with
  | O => 1
  | S fuel => if n <? 10 then 1 else 1 + ndigits_fuel fuel (n / 10)
  end.

(** [len(self._int)]: the number of decimal digits of the magnitude. *)
Definition ndigits (c : Z) : Z :=
  ndigits_fuel (Z.to_nat (Z.log2 (Z.abs c))) (Z.abs c).

(** [self.adjusted()] *)
Definition adjusted (self : t) : Z := exp self + ndigits (coef self) - 1.

(** Drop the last [k] digits of [c], rounding to nearest, ties to the
    even neighbour ([ROUND_HALF_EVEN], the context's rounding). *)
Definition round_half_even (c : Z) (k : Z) : Z :=
  let m := Z.abs c in
  let p := 10 ^ k in
  let q := m / p in
  let r := m mod p in
  let q' :=
    if 2 * r <? p then q
    else if p <? 2 * r then q + 1
    else if Z.even q then q else q + 1 in
  Z.sgn c * q'.

(** [self._fix(context)]: round the coefficient to [prec] digits. *)
Definition _fix (self : t) : t :=
  if coef self =? 0 then self
  else
    let exp_min := ndigits (coef self) + exp self - prec in
    if exp self <? exp_min then
      let coeff := round_half_even (coef self) (exp_min - exp self) in
      if prec <? ndigits coeff
      then mk (coeff / 10) (exp_min + 1)
      else mk coeff exp_min
    else self.

Definition __mul__ (self other : t) : t :=
  _fix (mk (coef self * coef other) (exp self + exp other)).

(** [self._rescale(exp, rounding)].  A coefficient shorter than the digits
    to drop rounds to zero here as it does in the source, which first
    replaces it by a single digit 1 below the last place kept. *)
Definition _rescale (self : t) (e : Z) : t :=
  if coef self =? 0 then mk 0 e
  else if e <=? exp self then mk (coef self * 10 ^ (exp self - e)) e
  else mk (round_half_even (coef self) (e - exp self)) e.

(** [self.quantize(Decimal((0, (1,), e)))] *)
Definition quantize (self : t) (e : Z) : result t :=
  if coef self =? 0 then Ok (_fix (mk 0 e))
  else if prec <? adjusted self - e + 1 then Raise InvalidOperation
  else
    let ans := _rescale self e in
    if prec <? ndigits (coef ans) then Raise InvalidOperation
    else Ok (_fix ans).

(** [round(self, n)] *)
Definition __round__ (self : t) (n : Z) : result t := quantize self (- n).

(** The number a [Decimal] denotes. *)
Definition to_Qc (self : t) : Qc :=
  if 0 <=? exp self
  then Q2Qc (inject_Z (coef self * 10 ^ exp self))
  else Q2Qc (Qmake (coef self) (Z.to_pos (10 ^ (- exp self)))).

Definition of_Z (n : Z) : t := mk n 0.

End Decimal.

(** ** address.py *)

(** [y.constants.EEE_ADDRESS], the pseudo-token of the native asset. *)
Definition EEE_ADDRESS : Address := 0xEeeeeEeeeEeEeeEeEeEeeEEEeeeeEeeeeeeeEEeE%N.

(** [_calc_value(balance, price)].  [balance] and [price] stand for
    [Decimal(balance)] and [Decimal(price)], conversions that are exact. *)
Definition _calc_value (balance : Decimal.t) (price : option Decimal.t)
    : result Decimal.t :=
  match price with
  | None => Ok (Decimal.of_Z 0)
  | Some price =>
      let value := Decimal.__mul__ balance price in
      match Decimal.__round__ value 18 with
      | Raise InvalidOperation => Ok value
      | r => r
      end
  end.

(** A Python value passed as [block]. *)
Inductive pyval : Type :=
  | PyNone
  | PyBool (b : bool)
  | PyInt (n : Z)
  | PyFloat (x : Qc)
  | PyStr (s : string).

Definition truthy (v : pyval) : bool :=
  match v with
  | PyNone => false
  | PyBool b => b
  | PyInt n => negb (n =? 0)
  | PyFloat x => negb (bool_decide (x = 0%Qc))
  | PyStr s => negb (bool_decide (s = ""%string))
  end.

(** [isinstance(v, int)]; [bool] is a subclass of [int]. *)
Definition isinstance_int (v : pyval) : bool :=
  match v with
  | PyBool _ | PyInt _ => true
  | _ => false
  end.

Module PortfolioAddress.

(** [_eth_balance_async], from the results of its two awaited calls:
    [balance] of [_get_eth_balance] and [price] of [get_price(weth, ...)].
    [Decimal(None)] raises [TypeError]. *)
Definition _eth_balance_async (balance : Decimal.t) (price : option Decimal.t)
    : result Balance.t :=
  price ← match price with
          | Some price => Ok price
          | None => Raise TypeError
          end;
  value ← Decimal.__round__ (Decimal.__mul__ balance price) 18;
  Ok (Balance.mk (Decimal.to_Qc balance) (Decimal.to_Qc value)).

(** [_token_balances_async], from the token list of the transfer ledger
    and the balances and prices gathered for it. *)
Definition _token_balances_async (tokens : list Address)
    (token_balances : list Decimal.t) (token_prices : list (option Decimal.t))
    : result TokenBalances.t :=
  token_balances ←
    mapM (λ '(balance, price),
            value ← _calc_value balance price;
            Ok (Balance.mk (Decimal.to_Qc balance) (Decimal.to_Qc value)))
         (zip token_balances token_prices);
  Ok (TokenBalances.__init__ (zip tokens token_balances)).

(** The five sub-requests of a snapshot. *)
Inductive Leaf : Type :=
  | req_eth_balance
  | req_token_balances
  | req_debt
  | req_staking
  | req_collateral.

Global Instance Leaf_eq_dec : EqDecision Leaf.
Proof. solve_decision. Defined.

(** Modelled from the spec: the protocol modules behind [_debt_async],
    [_staking_async] and [_collateral_async] ([_lending], [_external]) are
    not among the sources; by section 6 of the spec each of their lookups
    returns a TokenBalances.  The record holds what the five sub-requests
    return for the wallet at the block. *)
Record Lookups : Type := {
  r_eth_balance : Balance.t;
  r_token_balances : TokenBalances.t;
  r_debt : TokenBalances.t;
  r_staking : TokenBalances.t;
  r_collateral : TokenBalances.t;
}.

(** The result slot of each sub-request; [None] while it is in flight. *)
Record Slots : Type := {
  s_eth_balance : option Balance.t;
  s_token_balances : option TokenBalances.t;
  s_debt : option TokenBalances.t;
  s_staking : option TokenBalances.t;
  s_collateral : option TokenBalances.t;
}.

Definition in_flight : Slots :=
  {| s_eth_balance := None; s_token_balances := None; s_debt := None;
     s_staking := None; s_collateral := None |}.

(** A sub-request completes: its result is stored in its own slot. *)
Definition complete (r : Lookups) (s : Slots) (l : Leaf) : Slots :=
  match l with
  | req_eth_balance =>
      {| s_eth_balance := Some (r_eth_balance r);
         s_token_balances := s_token_balances s; s_debt := s_debt s;
         s_staking := s_staking s; s_collateral := s_collateral s |}
  | req_token_balances =>
      {| s_eth_balance := s_eth_balance s;
         s_token_balances := Some (r_token_balances r); s_debt := s_debt s;
         s_staking := s_staking s; s_collateral := s_collateral s |}
  | req_debt =>
      {| s_eth_balance := s_eth_balance s;
         s_token_balances := s_token_balances s; s_debt := Some (r_debt r);
         s_staking := s_staking s; s_collateral := s_collateral s |}
  | req_staking =>
      {| s_eth_balance := s_eth_balance s;
         s_token_balances := s_token_balances s; s_debt := s_debt s;
         s_staking := Some (r_staking r); s_collateral := s_collateral s |}
  | req_collateral =>
      {| s_eth_balance := s_eth_balance s;
         s_token_balances := s_token_balances s; s_debt := s_debt s;
         s_staking := s_staking s; s_collateral := Some (r_collateral r) |}
  end.

(** The event loop runs the sub-requests to completion in the order
    [order]. *)
Definition settle (r : Lookups) (order : list Leaf) : Slots :=
  foldl (complete r) in_flight order.

(** [await asyncio.gather(a, b)]: resumes once both are done, with the
    results in the order the awaitables were passed. *)
Definition gather2 {A B} (a : option A) (b : option B) : option (A * B) :=
  a ← a; b ← b; Some (a, b).

(** [await asyncio.gather(a, b, c)] where the third awaitable is a
    coroutine that may raise: its exception is propagated to the awaiter
    as soon as it is raised, whatever the state of the others; else the
    three results once all are there. *)
Definition gather3 {A B C} (a : option A) (b : option B)
    (c : option (result C)) : option (result (A * B * C)) :=
  match c with
  | Some (Raise e) => Some (Raise e)
  | Some (Ok c) => a ← a; b ← b; Some (Ok (a, b, c))
  | None => None
  end.

Definition _balances_async (s : Slots) : option TokenBalances.t :=
  '(eth_balance, token_balances) ←
     gather2 (s_eth_balance s) (s_token_balances s);
  Some (TokenBalances.__setitem__ token_balances EEE_ADDRESS eth_balance).

Definition _assets_async (s : Slots) : option TokenBalances.t :=
  _balances_async s.

Definition _debt_async (s : Slots) : option TokenBalances.t := s_debt s.

(** [None] while a sub-request is in flight; then the coroutine returns
    [staked + collateral], or raises what the addition raises. *)
Definition _external_balances_async (s : Slots)
    : option (result TokenBalances.t) :=
  '(staked, collateral) ← gather2 (s_staking s) (s_collateral s);
  Some (TokenBalances.__add__ staked collateral).

(** [self[k1], self[k2], ... = v1, v2, ...]: the item assignments run
    left to right and stop at the first that raises. *)
Fixpoint assign_items (self : WalletBalances.t)
    (items : list (string * TokenBalances.t))
    : WalletBalances.t * result unit :=
  match items with
  | [] => (self, Ok ())
  | (key, value) :: items =>
      match WalletBalances.__setitem__ self key value with
      | Ok self1 => assign_items self1 items
      | Raise e => (self, Raise e)
      end
  end.

(** One run of [_describe_async]: the sub-requests issued, the local
    [balances] object as the run left it, and what the coroutine did:
    [None] while it still awaits, else its return value or exception. *)
Record Run : Type := {
  issued : list Leaf;
  balances : WalletBalances.t;
  outcome : option (result WalletBalances.t);
}.

Definition fan_out : list Leaf :=
  [req_eth_balance; req_token_balances; req_debt; req_staking;
   req_collateral].

Definition _describe_async (r : Lookups) (order : list Leaf) (block : pyval)
    : Run :=
  if negb (truthy block) then
    {| issued := []; balances := ∅; outcome := Some (Raise AssertionError) |}
  else if negb (isinstance_int block) then
    {| issued := []; balances := ∅; outcome := Some (Raise AssertionError) |}
  else
    let s := settle r order in
    let balances : WalletBalances.t := ∅ in
    match gather3 (_assets_async s) (_debt_async s)
                  (_external_balances_async s) with
    | None => {| issued := fan_out; balances := balances; outcome := None |}
    | Some (Raise e) =>
        {| issued := fan_out; balances := balances;
           outcome := Some (Raise e) |}
    | Some (Ok (a, b, c)) =>
        match assign_items balances
                [("assets"%string, a); ("debt"%string, b);
                 ("external"%string, c)] with
        | (balances, Ok _) =>
            {| issued := fan_out; balances := balances;
               outcome := Some (Ok balances) |}
        | (balances, Raise e) =>
            {| issued := fan_out; balances := balances;
               outcome := Some (Raise e) |}
        end
    end.

End PortfolioAddress.

(** ** Values used in the examples *)

Definition TOK : Address := 1%N.
Definition TOK2 : Address := 2%N.
Definition WALLET : Address := 0xA11CE%N.

(** [Decimal(z)] as the number kept in a [Balance]. *)
Definition dec (z : Z) : Qc := Q2Qc (inject_Z z).

(** ** Auxiliary notions of the statements *)

Import PortfolioAddress.

(** The entry of a dict that the loops of [__add__] take into account. *)
Definition nonzero (o : option Balance.t) : option Balance.t :=
  b ← o; if Balance.__bool__ b then Some b else None.

(** A TokenBalances without its zero entries. *)
Definition nonzero_entries (tb : gmap N Balance.t) : gmap N Balance.t :=
  filter (λ kb, Balance.__bool__ kb.2 = true) tb.

(** No token has a non-zero balance both in [x] and in [y]. *)
Definition disjoint_nonzero (x y : gmap N Balance.t) : Prop :=
  map_Forall (λ k b, Balance.__bool__ b = true → nonzero (x !! k) = None) y.

Global Instance disjoint_nonzero_dec x y : Decision (disjoint_nonzero x y).
Proof. unfold disjoint_nonzero. apply _. Defined.

(** The entry of a dict of dicts under the keys [a] then [b]. *)
Definition lookup2 `{Countable K1, Countable K2} {V : Type}
    (m : gmap K1 (gmap K2 V)) (a : K1) (b : K2) : option V :=
  m !! a ≫= (.!! b).

(** What [acc[b][a] += tb] leaves in [acc] when [acc[b][a]] was missing
    and no key is rejected: the non-zero entries of [tb], copied onto the
    empty [TokenBalances()] that the read inserts. *)
Definition iadd_item2 `{Countable K1, Countable K2}
    (a : K1) (b : K2) (tb : gmap N Balance.t)
    (acc : gmap K2 (gmap K1 (gmap N Balance.t)))
    : gmap K2 (gmap K1 (gmap N Balance.t)) :=
  <[b := <[a := nonzero_entries tb]> (default ∅ (acc !! b))]> acc.

Definition rows_nonempty `{Countable K1, Countable K2} {V : Type}
    (m : gmap K1 (gmap K2 V)) : Prop :=
  ∀ a row, m !! a = Some row → row ≠ ∅.

(** A non-zero-pruned PortfolioBalances: every Money entry is non-zero, *)
Definition money_nonzero (p : gmap N (gmap string (gmap N Balance.t))) : Prop :=
  map_Forall (λ _ wb,
    map_Forall (λ _ tb,
      map_Forall (λ _ b, Balance.__bool__ b = true)
        (tb : gmap N Balance.t))
      (wb : gmap string (gmap N Balance.t))) p.

(** no wallet has an empty WalletBalances and no category an empty
    TokenBalances, the zero values of their levels. *)
Definition no_empty_entry (p : gmap N (gmap string (gmap N Balance.t))) : Prop :=
  map_Forall (λ _ wb,
    wb ≠ ∅ ∧
    map_Forall (λ _ tb, (tb : gmap N Balance.t) ≠ ∅)
      (wb : gmap string (gmap N Balance.t))) p.

(** Every category key is one that [WalletBalances] accepts, as its item
    assignment enforces. *)
Definition valid_categories (p : gmap N (gmap string (gmap N Balance.t))) : Prop :=
  map_Forall (λ _ wb,
    map_Forall (λ label _, label ∈ ["assets"; "debt"]%string)
      (wb : gmap string (gmap N Balance.t))) p.

Global Instance money_nonzero_dec p : Decision (money_nonzero p).
Proof. unfold money_nonzero. apply _. Defined.

Global Instance no_empty_entry_dec p : Decision (no_empty_entry p).
Proof. unfold no_empty_entry. apply _. Defined.

Global Instance valid_categories_dec p : Decision (valid_categories p).
Proof. unfold valid_categories. apply _. Defined.

(** The loops of [inverted] and [invert], over a step that behaves as
    [iadd_item2]. *)
Definition transpose_inner `{Countable K1, Countable K2}
    (a : K1) (b : K2) (tb : gmap N Balance.t)
    (acc : gmap K2 (gmap K1 (gmap N Balance.t)))
    : gmap K2 (gmap K1 (gmap N Balance.t)) :=
  if TokenBalances.__bool__ tb then iadd_item2 a b tb acc else acc.

Definition transpose_outer `{Countable K1, Countable K2}
    (a : K1) (row : gmap K2 (gmap N Balance.t))
    (acc : gmap K2 (gmap K1 (gmap N Balance.t)))
    : gmap K2 (gmap K1 (gmap N Balance.t)) :=
  map_fold (transpose_inner a) acc row.

Definition transpose `{Countable K1, Countable K2}
    (m : gmap K1 (gmap K2 (gmap N Balance.t)))
    : gmap K2 (gmap K1 (gmap N Balance.t)) :=
  map_fold transpose_outer ∅ m.

(** ** Auxiliary notions of the further properties *)

(** The values that a seed lists for [key], in the order of the seed. *)
Definition seed_entries {K V : Type} `{EqDecision K} (key : K)
    (seed : list (K * V)) : list V :=
  omap (λ '(k, v), if decide (k = key) then Some v else None) seed.

(** The entry of [a - b] before pruning, from the entries of [a] and [b]. *)
Definition sub_entry (a b : option Balance.t) : option Balance.t :=
  match a, b with
  | Some x, Some y => Some (Balance.__sub__ x y)
  | Some x, None => Some x
  | None, Some y => Some (Balance.__sub__ Balance.default y)
  | None, None => None
  end.

(** [self - other] before the pruning loop. *)
Definition difference (self other : gmap N Balance.t) : gmap N Balance.t :=
  merge sub_entry self other.

(** The entry of a dict that the loops of the nested [__add__] and of the
    inversions take into account. *)
Definition truthy_balances (o : option (gmap N Balance.t))
    : option (gmap N Balance.t) :=
  tb ← o; if TokenBalances.__bool__ tb then Some tb else None.

(** The entry of [self + other] for two WalletBalances, from the entries
    of [self] and [other], when nothing raises. *)
Definition add_categories (a b : option (gmap N Balance.t))
    : option (gmap N Balance.t) :=
  match truthy_balances a, truthy_balances b with
  | Some x, Some y => Some (nonzero_entries x ∪ nonzero_entries y)
  | Some x, None => Some (nonzero_entries x)
  | None, Some y => Some (nonzero_entries y)
  | None, None => None
  end.

(** No truthy category of [w] is one that [WalletBalances] rejects. *)
Definition accepted (w : gmap string (gmap N Balance.t)) : Prop :=
  map_Forall (λ category balances,
    TokenBalances.__bool__ balances = true →
    category ∈ ["assets"; "debt"]%string) w.

Global Instance accepted_dec w : Decision (accepted w).
Proof. unfold accepted. apply _. Defined.

(** No category holds a non-zero balance for the same token in [self] and
    in [other]. *)
Definition categories_disjoint (self other : gmap string (gmap N Balance.t))
    : Prop :=
  map_Forall (λ category balances,
    disjoint_nonzero (default ∅ (self !! category)) balances) other.

Global Instance categories_disjoint_dec self other :
  Decision (categories_disjoint self other).
Proof. unfold categories_disjoint. apply _. Defined.

(** What [self[category] += balances] leaves in a WalletBalances when the
    category is accepted and the addition returns. *)
Definition iadd_category (self : gmap string (gmap N Balance.t))
    (category : string) (balances : gmap N Balance.t)
    : gmap string (gmap N Balance.t) :=
  <[category :=
      nonzero_entries (default ∅ (self !! category))
      ∪ nonzero_entries balances]> self.

(** The loop body of [WalletBalances.__add__] where it does not raise. *)
Definition add_loop_pure (category : string) (balances : gmap N Balance.t)
    (combined : gmap string (gmap N Balance.t))
    : gmap string (gmap N Balance.t) :=
  if TokenBalances.__bool__ balances
  then iadd_category combined category balances
  else combined.

(** A WalletBalances after the read [self[category]] of an accepted
    category: the factory's empty [TokenBalances()] is stored when the
    category was missing. *)
Definition with_category (self : gmap string (gmap N Balance.t))
    (category : string) : gmap string (gmap N Balance.t) :=
  match self !! category with
  | Some _ => self
  | None => <[category := ∅]> self
  end.

(** Every key of a WalletBalances is ['assets'] or ['debt']. *)
Definition valid_keys (w : gmap string (gmap N Balance.t)) : Prop :=
  map_Forall (λ category _, category ∈ ["assets"; "debt"]%string) w.

Global Instance valid_keys_dec w : Decision (valid_keys w).
Proof. unfold valid_keys. apply _. Defined.

(** The entry of [self - other] for two WalletBalances before the pruning
    loop, from the entries of [self] and [other]: the copy
    [WalletBalances(self)] holds the non-zero entries of each category of
    [self]. *)
Definition sub_categories (a b : option (gmap N Balance.t))
    : option (gmap N Balance.t) :=
  match a, b with
  | Some x, Some y => Some (difference (nonzero_entries x) y)
  | Some x, None => Some (nonzero_entries x)
  | None, Some y => Some (difference ∅ y)
  | None, None => None
  end.

Definition wallet_difference (self other : gmap string (gmap N Balance.t))
    : gmap string (gmap N Balance.t) :=
  merge sub_categories self other.

(** A TokenBalances that is not empty and holds no zero balance. *)
Definition pruned (tb : gmap N Balance.t) : Prop :=
  tb ≠ ∅ ∧ map_Forall (λ _ b, Balance.__bool__ b = true) tb.

Global Instance pruned_dec tb : Decision (pruned tb).
Proof. unfold pruned. apply _. Defined.

(** The loop body of [WalletBalances.__sub__] for an accepted category. *)
Definition sub_loop_pure (category : string) (balances : gmap N Balance.t)
    (acc : iteration (gmap string (gmap N Balance.t)))
    : iteration (gmap string (gmap N Balance.t)) :=
  match acc with
  | Finished subtracted =>
      match TokenBalances.__sub__ (default ∅ (subtracted !! category))
              balances with
      | Finished new => Finished (<[category := new]> subtracted)
      | RuntimeError => RuntimeError
      end
  | RuntimeError => RuntimeError
  end.

(** Every Money entry of a two-level container is non-zero. *)
Definition entries_nonzero `{Countable K1, Countable K2}
    (m : gmap K1 (gmap K2 (gmap N Balance.t))) : Prop :=
  map_Forall (λ _ row,
    map_Forall (λ _ tb,
      map_Forall (λ _ b, Balance.__bool__ b = true) (tb : gmap N Balance.t))
      (row : gmap K2 (gmap N Balance.t))) m.

(** No key of a two-level container holds an empty dict, at either
    level. *)
Definition entries_nonempty `{Countable K1, Countable K2}
    (m : gmap K1 (gmap K2 (gmap N Balance.t))) : Prop :=
  map_Forall (λ _ row,
    row ≠ ∅ ∧
    map_Forall (λ _ tb, (tb : gmap N Balance.t) ≠ ∅)
      (row : gmap K2 (gmap N Balance.t))) m.

(** No truthy TokenBalances of the category-first view [q] is stored
    under a label that [WalletBalances] rejects. *)
Definition accepted_labels (q : gmap string (gmap N (gmap N Balance.t)))
    : Prop :=
  map_Forall (λ label row,
    map_Forall (λ _ tb,
      TokenBalances.__bool__ (tb : gmap N Balance.t) = true →
      label ∈ ["assets"; "debt"]%string)
      (row : gmap N (gmap N Balance.t))) q.

Global Instance entries_nonzero_dec `{Countable K1, Countable K2}
    (m : gmap K1 (gmap K2 (gmap N Balance.t))) : Decision (entries_nonzero m).
Proof. unfold entries_nonzero. apply _. Defined.

Global Instance entries_nonempty_dec `{Countable K1, Countable K2}
    (m : gmap K1 (gmap K2 (gmap N Balance.t))) : Decision (entries_nonempty m).
Proof. unfold entries_nonempty. apply _. Defined.

Global Instance accepted_labels_dec q : Decision (accepted_labels q).
Proof. unfold accepted_labels. apply _. Defined.

(** * Properties *)

(** ** A loop over the items of a dict, seen through a projection

    Each iteration of [for k, a in m.items(): ...] changes what the state
    shows at its own key [k] and nothing at the other keys. *)

Section fold_view.
Context `{Countable K} {A S I V : Type}.
Variable step : K → A → S → S.
Variable view : S → K → I → V.
Variable h : K → A → I → V → V.
Hypothesis step_own :
  ∀ k a s i, view (step k a s) k i = h k a i (view s k i).
Hypothesis step_other :
  ∀ k a s k' i, k ≠ k' → view (step k a s) k' i = view s k' i.

Lemma map_fold_view (s0 : S) (m : gmap K A) (k : K) (i : I) :
  view (map_fold step s0 m) k i =
    match m !! k with
    | Some a => h k a i (view s0 k i)
    | None => view s0 k i
    end.
Proof.
  revert k i.
  apply (map_fold_weak_ind (λ r m, ∀ k i,
    view r k i = match m !! k with
                 | Some a => h k a i (view s0 k i)
                 | None => view s0 k i
                 end)).
  - intros k i. by rewrite lookup_empty.
  - intros j x m' r Hj IH k i. destruct (decide (j = k)) as [->|Hne].
    + rewrite step_own, lookup_insert_eq, IH, Hj. done.
    + rewrite step_other, lookup_insert_ne, IH by done. done.
Qed.
End fold_view.

Lemma map_fold_preserves `{Countable K} {A S : Type} (P : S → Prop)
    (f : K → A → S → S) (s0 : S) (m : gmap K A) :
  P s0 → (∀ k a s, P s → P (f k a s)) → P (map_fold f s0 m).
Proof.
  intros H0 Hstep.
  apply (map_fold_weak_ind (λ r _, P r)); [done|].
  intros k a m' r _ Hr. by apply Hstep.
Qed.

(** ** Loops that may raise

    A loop whose items either go through, as the pure step [g] says, or
    raise the exception [e0]: it raises [e0] when one item does, and else
    ends as the pure loop.  Whether an item goes through may depend on
    what the items before it have built. *)
Lemma map_fold_result `{Countable K} {A S : Type} (good : K → A → Prop)
    `{∀ k a, Decision (good k a)}
    (f : K → A → result S → result S) (g : K → A → S → S) (e0 : exn)
    (s0 : S) (m : gmap K A) :
  (∀ k a, f k a (Raise e0) = Raise e0) →
  (∀ k a m', m' !! k = None → <[k := a]> m' ⊆ m → good k a →
     f k a (Ok (map_fold g s0 m')) = Ok (g k a (map_fold g s0 m'))) →
  (∀ k a m', m' !! k = None → <[k := a]> m' ⊆ m → ¬ good k a →
     f k a (Ok (map_fold g s0 m')) = Raise e0) →
  map_fold f (Ok s0) m =
    if decide (map_Forall good m) then Ok (map_fold g s0 m) else Raise e0.
Proof.
  intros Hraise Hgood Hbad.
  assert (∀ m1, m1 ⊆ m →
            map_fold f (Ok s0) m1 =
              if decide (map_Forall good m1)
              then Ok (map_fold g s0 m1) else Raise e0) as Hsub;
    [|by apply Hsub].
  intros m1.
  induction m1 as [|k a m1 Hk Hfirst IH] using map_first_key_ind;
    intros Hm1.
  - rewrite !map_fold_empty. by rewrite decide_True by apply map_Forall_empty.
  - rewrite !map_fold_insert_first_key by done.
    rewrite IH by (etrans; [by apply insert_subseteq|done]).
    destruct (decide (map_Forall good m1)) as [Hall|Hall].
    + destruct (decide (good k a)) as [Hka|Hka].
      * rewrite Hgood by done.
        rewrite decide_True; [done|]. by apply map_Forall_insert.
      * rewrite Hbad by done.
        rewrite decide_False; [done|].
        intros [? _]%map_Forall_insert; done.
    + rewrite Hraise. rewrite decide_False; [done|].
      intros [_ ?]%map_Forall_insert; done.
Qed.

Lemma map_fold_Raise_init `{Countable K} {A S : Type}
    (f : K → A → result S → result S) (e : exn) (m : gmap K A) :
  (∀ k a, f k a (Raise e) = Raise e) →
  map_fold f (Raise e) m = Raise e.
Proof.
  intros Hf. apply (map_fold_preserves (λ r, r = Raise e)); [done|].
  intros k a s ->. apply Hf.
Qed.

(** ** Balance *)

Lemma Balance_copy (b : Balance.t) :
  Balance.mk (Balance.balance b) (Balance.usd_value b) = b.
Proof. by destruct b. Qed.

Lemma Balance_default_falsy : Balance.__bool__ Balance.default = false.
Proof. reflexivity. Qed.

(** ** TokenBalances *)

Lemma nonzero_Some (o : option Balance.t) (b : Balance.t) :
  nonzero o = Some b ↔ o = Some b ∧ Balance.__bool__ b = true.
Proof.
  destruct o as [a|]; simpl; [|split; [done|by intros [? _]]].
  destruct (Balance.__bool__ a) eqn:Ha.
  - split; [by intros [= <-]|by intros [[= <-] _]].
  - split; [done|]. intros [[= <-] ?]. congruence.
Qed.

Lemma nonzero_idemp (o : option Balance.t) : nonzero (nonzero o) = nonzero o.
Proof.
  destruct o as [b|]; simpl; [|done].
  destruct (Balance.__bool__ b) eqn:Hb; simpl; [|done]. by rewrite Hb.
Qed.

Lemma nonzero_entries_lookup (tb : gmap N Balance.t) (k : N) :
  nonzero_entries tb !! k = nonzero (tb !! k).
Proof.
  unfold nonzero_entries. rewrite map_lookup_filter.
  destruct (tb !! k) as [b|]; simpl; [|done].
  destruct (Balance.__bool__ b) eqn:Hb.
  - by rewrite option_guard_True.
  - rewrite option_guard_False; [done|congruence].
Qed.

Lemma nonzero_entries_empty : nonzero_entries ∅ = ∅.
Proof. apply map_eq; intros k. by rewrite nonzero_entries_lookup, !lookup_empty. Qed.

Lemma nonzero_entries_idemp (tb : gmap N Balance.t) :
  nonzero_entries (nonzero_entries tb) = nonzero_entries tb.
Proof.
  apply map_eq; intros k. by rewrite !nonzero_entries_lookup, nonzero_idemp.
Qed.

(** A TokenBalances without zero entries is its own non-zero part. *)
Lemma nonzero_entries_id (tb : gmap N Balance.t) :
  map_Forall (λ _ b, Balance.__bool__ b = true) tb →
  nonzero_entries tb = tb.
Proof.
  intros Hnz. apply map_eq; intros k. rewrite nonzero_entries_lookup.
  destruct (tb !! k) as [b|] eqn:Hk; simpl; [|done].
  by rewrite (Hnz k b Hk).
Qed.

Lemma nonzero_entries_nonzero (tb : gmap N Balance.t) :
  map_Forall (λ _ b, Balance.__bool__ b = true) (nonzero_entries tb).
Proof.
  intros k b. rewrite nonzero_entries_lookup. by intros [_ ?]%nonzero_Some.
Qed.

(** The first loop of [__add__] copies the non-zero entries. *)
Lemma add_loop1_lookup (combined self : gmap N Balance.t) (k : N) :
  map_fold TokenBalances.add_loop1 combined self !! k =
    match nonzero (self !! k) with
    | Some b => Some b
    | None => combined !! k
    end.
Proof.
  etrans.
  - apply (map_fold_view (I := unit)
      TokenBalances.add_loop1 (λ s k _, s !! k)
      (λ _ b _ o, if Balance.__bool__ b then Some b else o)) with (i := ()).
    + intros j b s _. unfold TokenBalances.add_loop1.
      destruct (Balance.__bool__ b); [|done].
      unfold TokenBalances._setattr_nochecksum.
      by rewrite lookup_insert_eq, Balance_copy.
    + intros j b s k' _ Hne. unfold TokenBalances.add_loop1.
      destruct (Balance.__bool__ b); [|done].
      unfold TokenBalances._setattr_nochecksum. by rewrite lookup_insert_ne.
  - simpl. destruct (self !! k) as [b|]; simpl; [|done].
    by destruct (Balance.__bool__ b).
Qed.

Lemma add_loop1_union (combined self : gmap N Balance.t) :
  map_fold TokenBalances.add_loop1 combined self
  = nonzero_entries self ∪ combined.
Proof.
  apply map_eq; intros k.
  rewrite add_loop1_lookup, lookup_union, nonzero_entries_lookup.
  destruct (nonzero (self !! k)) as [b|]; simpl.
  - by rewrite union_Some_l.
  - by rewrite (left_id_L None union).
Qed.

Lemma disjoint_nonzero_sym (x y : gmap N Balance.t) :
  disjoint_nonzero x y → disjoint_nonzero y x.
Proof.
  intros Hxy k a Hk Ha.
  destruct (nonzero (y !! k)) as [b|] eqn:Hb; [|done].
  apply nonzero_Some in Hb as [Hb Htb].
  specialize (Hxy k b Hb Htb). rewrite Hk in Hxy. simpl in Hxy.
  by rewrite Ha in Hxy.
Qed.

Lemma disjoint_nonzero_empty_l (y : gmap N Balance.t) : disjoint_nonzero ∅ y.
Proof. intros k b _ _. by rewrite lookup_empty. Qed.

Lemma disjoint_nonzero_entries_l (x y : gmap N Balance.t) :
  disjoint_nonzero (nonzero_entries x) y ↔ disjoint_nonzero x y.
Proof.
  unfold disjoint_nonzero. split; intros Hd k b Hk Hb;
    specialize (Hd k b Hk Hb);
    by rewrite nonzero_entries_lookup, nonzero_idemp in *.
Qed.

Lemma nonzero_union_comm (x y : gmap N Balance.t) :
  disjoint_nonzero x y →
  nonzero_entries x ∪ nonzero_entries y = nonzero_entries y ∪ nonzero_entries x.
Proof.
  intros Hd. apply map_union_comm, map_disjoint_spec.
  intros k a b. rewrite !nonzero_entries_lookup.
  intros Ha [Hb Htb]%nonzero_Some. specialize (Hd k b Hb Htb). congruence.
Qed.

(** [self + other]: the second loop reaches the mangled attribute read for
    the first token it finds with a non-zero balance in both operands, and
    never adds two balances; where there is no such token it copies the
    non-zero entries of [other] next to those of [self]. *)
Lemma TokenBalances_add_eq (self other : gmap N Balance.t) :
  TokenBalances.__add__ self other =
    if decide (disjoint_nonzero self other)
    then Ok (nonzero_entries self ∪ nonzero_entries other)
    else Raise AttributeError.
Proof.
  unfold TokenBalances.__add__. cbv zeta.
  rewrite (map_fold_result
    (λ k b, Balance.__bool__ b = true → nonzero (self !! k) = None)
    TokenBalances.add_loop2 TokenBalances.add_loop1 AttributeError).
  - unfold disjoint_nonzero.
    destruct (decide (map_Forall _ other)) as [Hd|Hd]; [|done].
    f_equal. rewrite !add_loop1_union, (right_id_L ∅ union).
    symmetry. by apply nonzero_union_comm.
  - done.
  - intros k b m' Hk _ Hgood. unfold TokenBalances.add_loop2,
      TokenBalances.add_loop1. simpl.
    destruct (Balance.__bool__ b) eqn:Hb; [|done].
    rewrite bool_decide_eq_false_2; [done|].
    rewrite !add_loop1_lookup, lookup_empty, Hk. simpl.
    rewrite Hgood by done. by intros [? ?].
  - intros k b m' Hk _ Hbad. unfold TokenBalances.add_loop2. simpl.
    destruct (Balance.__bool__ b) eqn:Hb; [|by destruct Hbad].
    rewrite bool_decide_eq_true_2; [done|].
    rewrite !add_loop1_lookup, lookup_empty, Hk. simpl.
    destruct (nonzero (self !! k)); [done|by destruct Hbad].
Qed.

Lemma TokenBalances_add_empty_l (tb : gmap N Balance.t) :
  TokenBalances.__add__ ∅ tb = Ok (nonzero_entries tb).
Proof.
  rewrite TokenBalances_add_eq.
  rewrite decide_True by apply disjoint_nonzero_empty_l.
  by rewrite nonzero_entries_empty, (left_id_L ∅ union).
Qed.

Lemma TokenBalances_add_empty_r (tb : gmap N Balance.t) :
  TokenBalances.__add__ tb ∅ = Ok (nonzero_entries tb).
Proof.
  rewrite TokenBalances_add_eq.
  rewrite decide_True by apply map_Forall_empty.
  by rewrite nonzero_entries_empty, (right_id_L ∅ union).
Qed.

Lemma TokenBalances_bool_insert (m : gmap N Balance.t) (k : N) (v : Balance.t) :
  m !! k = None →
  TokenBalances.__bool__ (<[k := v]> m)
  = Balance.__bool__ v || TokenBalances.__bool__ m.
Proof.
  intros Hk. unfold TokenBalances.__bool__.
  rewrite map_fold_insert_L; [done| |done].
  intros j1 j2 z1 z2 y _ _ _.
  by destruct (Balance.__bool__ z1), (Balance.__bool__ z2).
Qed.

Lemma TokenBalances_sum_usd_insert (m : gmap N Balance.t) (k : N) (v : Balance.t) :
  m !! k = None →
  TokenBalances.sum_usd (<[k := v]> m)
  = (TokenBalances.sum_usd m + Balance.usd v)%Qc.
Proof.
  intros Hk. unfold TokenBalances.sum_usd.
  rewrite map_fold_insert_L; [done| |done].
  intros j1 j2 z1 z2 y _ _ _. ring.
Qed.

(** [any(self.values())] *)
Lemma TokenBalances_bool_true (m : gmap N Balance.t) :
  TokenBalances.__bool__ m = true ↔
  ∃ k b, m !! k = Some b ∧ Balance.__bool__ b = true.
Proof.
  unfold TokenBalances.__bool__.
  apply (map_fold_weak_ind (λ r m,
    r = true ↔ ∃ k b, m !! k = Some b ∧ Balance.__bool__ b = true)).
  - split; [done|]. intros (k & b & Hk & _). by rewrite lookup_empty in Hk.
  - intros j x m' r Hj IH. rewrite orb_true_iff, IH. split.
    + intros [Hx|(k & b & Hk & Hb)].
      * exists j, x. by rewrite lookup_insert_eq.
      * exists k, b. split; [|done].
        rewrite lookup_insert_ne; [done|]. intros ->. congruence.
    + intros (k & b & Hk & Hb). destruct (decide (j = k)) as [->|Hne].
      * rewrite lookup_insert_eq in Hk. left. congruence.
      * rewrite lookup_insert_ne in Hk by done. right. eauto.
Qed.

Lemma TokenBalances_nonzero_truthy (tb : gmap N Balance.t) :
  tb ≠ ∅ →
  map_Forall (λ _ b, Balance.__bool__ b = true) tb →
  TokenBalances.__bool__ tb = true.
Proof.
  intros Hne Hnz. apply TokenBalances_bool_true.
  destruct (map_choose tb Hne) as (k & b & Hk). eauto.
Qed.

Lemma TokenBalances_falsy_nonzero (tb : gmap N Balance.t) (k : N) :
  TokenBalances.__bool__ tb = false → nonzero (tb !! k) = None.
Proof.
  intros Hfalse. destruct (tb !! k) as [b|] eqn:Hk; simpl; [|done].
  destruct (Balance.__bool__ b) eqn:Hb; [|done].
  assert (TokenBalances.__bool__ tb = true) by
    (apply TokenBalances_bool_true; eauto).
  congruence.
Qed.

Lemma nonzero_entries_truthy (tb : gmap N Balance.t) :
  TokenBalances.__bool__ tb = true →
  TokenBalances.__bool__ (nonzero_entries tb) = true.
Proof.
  intros (k & b & Hk & Hb)%TokenBalances_bool_true.
  apply TokenBalances_bool_true. exists k, b. split; [|done].
  rewrite nonzero_entries_lookup. by apply nonzero_Some.
Qed.

(** ** WalletBalances *)

Lemma valid_category_cases (key : string) :
  key ∈ ["assets"; "debt"]%string ↔ key = "assets"%string ∨ key = "debt"%string.
Proof. rewrite !elem_of_cons, elem_of_nil. tauto. Qed.

Lemma validateitem_valid (key : string) :
  key ∈ ["assets"; "debt"]%string →
  WalletBalances.__validateitem key = Ok ().
Proof.
  intros Hkey. unfold WalletBalances.__validateitem.
  by rewrite bool_decide_eq_false_2 by (intros Hn; by apply Hn).
Qed.

Lemma validateitem_invalid (key : string) :
  key ∉ ["assets"; "debt"]%string →
  WalletBalances.__validateitem key = Raise KeyError.
Proof.
  intros Hkey. unfold WalletBalances.__validateitem.
  by rewrite bool_decide_eq_true_2.
Qed.

Lemma WalletBalances_getitem_valid (self : gmap string (gmap N Balance.t))
    (key : string) :
  key ∈ ["assets"; "debt"]%string →
  WalletBalances.__getitem__ self key =
    Ok (default ∅ (self !! key),
        match self !! key with
        | Some _ => self
        | None => <[key := ∅]> self
        end).
Proof.
  intros Hkey. unfold WalletBalances.__getitem__, WalletBalances.__setitem__.
  rewrite validateitem_valid by done. simpl.
  by destruct (self !! key).
Qed.

Lemma WalletBalances_sum_usd_value (self : gmap string (gmap N Balance.t)) :
  (fst <$> WalletBalances.sum_usd self) =
    Ok (TokenBalances.sum_usd (default ∅ (self !! "assets"%string))
        - TokenBalances.sum_usd (default ∅ (self !! "debt"%string)))%Qc.
Proof.
  unfold WalletBalances.sum_usd, WalletBalances.assets, WalletBalances.debt.
  rewrite WalletBalances_getitem_valid by set_solver. simpl.
  rewrite WalletBalances_getitem_valid by set_solver. simpl.
  destruct (self !! "assets"%string) eqn:Ha; simpl; [done|].
  by rewrite lookup_insert_ne.
Qed.

Lemma WalletBalances_bool_insert (m : gmap string (gmap N Balance.t))
    (k : string) (v : gmap N Balance.t) :
  m !! k = None →
  WalletBalances.__bool__ (<[k := v]> m)
  = TokenBalances.__bool__ v || WalletBalances.__bool__ m.
Proof.
  intros Hk. unfold WalletBalances.__bool__.
  rewrite map_fold_insert_L; [done| |done].
  intros j1 j2 z1 z2 y _ _ _.
  by destruct (TokenBalances.__bool__ z1), (TokenBalances.__bool__ z2).
Qed.

(** [self[category] += balances], for a category that [WalletBalances]
    accepts. *)
Lemma WalletBalances_iadd_item_valid (self : gmap string (gmap N Balance.t))
    (category : string) (balances : gmap N Balance.t) :
  category ∈ ["assets"; "debt"]%string →
  WalletBalances.iadd_item self category balances =
    if decide (disjoint_nonzero (default ∅ (self !! category)) balances)
    then Ok (iadd_category self category balances)
    else Raise AttributeError.
Proof.
  intros Hvalid. unfold WalletBalances.iadd_item, iadd_category.
  rewrite WalletBalances_getitem_valid by done. simpl.
  rewrite TokenBalances_add_eq.
  destruct (decide (disjoint_nonzero _ balances)); simpl; [|done].
  unfold WalletBalances.__setitem__. rewrite validateitem_valid by done.
  simpl. destruct (self !! category); simpl; [done|].
  by rewrite insert_insert_eq.
Qed.

Lemma WalletBalances_iadd_item_invalid (self : gmap string (gmap N Balance.t))
    (category : string) (balances : gmap N Balance.t) :
  category ∉ ["assets"; "debt"]%string →
  WalletBalances.iadd_item self category balances = Raise KeyError.
Proof.
  intros Hinvalid. unfold WalletBalances.iadd_item, WalletBalances.__getitem__.
  by rewrite validateitem_invalid.
Qed.

(** [self[category] += balances] onto a category that is missing or
    empty. *)
Lemma WalletBalances_iadd_item_fresh (self : gmap string (gmap N Balance.t))
    (category : string) (balances : gmap N Balance.t) :
  category ∈ ["assets"; "debt"]%string →
  default ∅ (self !! category) = ∅ →
  WalletBalances.iadd_item self category balances
  = Ok (<[category := nonzero_entries balances]> self).
Proof.
  intros Hvalid Hfresh. rewrite WalletBalances_iadd_item_valid by done.
  rewrite Hfresh, decide_True by apply disjoint_nonzero_empty_l.
  unfold iadd_category.
  by rewrite Hfresh, nonzero_entries_empty, (left_id_L ∅ union).
Qed.

(** ** The two inversions *)

Lemma rows_nonempty_ext `{Countable K1, Countable K2} {V : Type}
    (m1 m2 : gmap K1 (gmap K2 V)) :
  rows_nonempty m1 → rows_nonempty m2 →
  (∀ a b, lookup2 m1 a b = lookup2 m2 a b) →
  m1 = m2.
Proof.
  intros Hne1 Hne2 Heq. apply map_eq; intros a.
  specialize (Hne1 a). specialize (Hne2 a).
  assert (∀ b, lookup2 m1 a b = lookup2 m2 a b) as Ha by (intros; apply Heq).
  unfold lookup2 in Ha.
  destruct (m1 !! a) as [row1|], (m2 !! a) as [row2|]; simpl in Ha.
  - f_equal. by apply map_eq.
  - destruct (map_choose row1) as (b & v & Hb); [by apply Hne1|].
    specialize (Ha b). congruence.
  - destruct (map_choose row2) as (b & v & Hb); [by apply Hne2|].
    specialize (Ha b). congruence.
  - done.
Qed.

Section transposition.
Context `{Countable K1, Countable K2}.
Implicit Types m : gmap K1 (gmap K2 (gmap N Balance.t)).
Implicit Types acc : gmap K2 (gmap K1 (gmap N Balance.t)).
Implicit Types tb : gmap N Balance.t.

Lemma iadd_item2_own a b tb acc :
  lookup2 (iadd_item2 a b tb acc) b a = Some (nonzero_entries tb).
Proof.
  unfold iadd_item2, lookup2 at 1. rewrite lookup_insert_eq. simpl.
  by rewrite lookup_insert_eq.
Qed.

Lemma iadd_item2_other a b tb acc b' a' :
  b ≠ b' ∨ a ≠ a' →
  lookup2 (iadd_item2 a b tb acc) b' a' = lookup2 acc b' a'.
Proof.
  intros Hne. unfold iadd_item2, lookup2 at 1 2.
  destruct (decide (b = b')) as [<-|Hb].
  - rewrite lookup_insert_eq. simpl.
    rewrite lookup_insert_ne by (destruct Hne; done).
    by destruct (acc !! b).
  - by rewrite lookup_insert_ne.
Qed.

Lemma iadd_item2_rows_nonempty a b tb acc :
  rows_nonempty acc → rows_nonempty (iadd_item2 a b tb acc).
Proof.
  intros Hacc b' row. unfold iadd_item2.
  destruct (decide (b = b')) as [<-|Hb].
  - rewrite lookup_insert_eq. intros [= <-]. apply insert_non_empty.
  - rewrite lookup_insert_ne by done. apply Hacc.
Qed.

Lemma transpose_outer_lookup2 a row acc b a' :
  lookup2 (transpose_outer a row acc) b a' =
    match row !! b with
    | Some tb =>
        if decide (a' = a)
        then if TokenBalances.__bool__ tb
             then Some (nonzero_entries tb)
             else lookup2 acc b a'
        else lookup2 acc b a'
    | None => lookup2 acc b a'
    end.
Proof.
  unfold transpose_outer.
  pose (h := λ (_ : K2) (tb : gmap N Balance.t) (i : K1)
               (old : option (gmap N Balance.t)),
          if decide (i = a)
          then if TokenBalances.__bool__ tb
               then Some (nonzero_entries tb)
               else old
          else old).
  apply (map_fold_view (transpose_inner a) (λ s k i, lookup2 s k i) h);
    unfold h; clear h.
  - intros k tb s i. unfold transpose_inner.
    destruct (decide (i = a)) as [->|Hi].
    + destruct (TokenBalances.__bool__ tb); [|done].
      apply iadd_item2_own.
    + destruct (TokenBalances.__bool__ tb); [|done].
      apply iadd_item2_other. right. congruence.
  - intros k tb s k' i Hne. unfold transpose_inner.
    destruct (TokenBalances.__bool__ tb); [|done].
    apply iadd_item2_other. by left.
Qed.

Lemma transpose_lookup2 m b a :
  lookup2 (transpose m) b a =
    tb ← lookup2 m a b;
    if TokenBalances.__bool__ tb
    then Some (nonzero_entries tb)
    else None.
Proof.
  unfold transpose.
  pose (h := λ (_ : K1) (row : gmap K2 (gmap N Balance.t)) (i : K2)
               (old : option (gmap N Balance.t)),
          match row !! i with
          | Some tb =>
              if TokenBalances.__bool__ tb
              then Some (nonzero_entries tb)
              else old
          | None => old
          end).
  etrans.
  - apply (map_fold_view transpose_outer (λ s k i, lookup2 s i k) h);
      unfold h; clear h.
    + intros k row s i. rewrite transpose_outer_lookup2.
      destruct (row !! i); [|done]. by rewrite decide_True.
    + intros k row s k' i Hne. rewrite transpose_outer_lookup2.
      destruct (row !! i); [|done]. by rewrite decide_False.
  - unfold h, lookup2. rewrite lookup_empty. simpl.
    destruct (m !! a) as [row|]; simpl; [|done].
    by destruct (row !! b).
Qed.

Lemma transpose_rows_nonempty m : rows_nonempty (transpose m).
Proof.
  unfold transpose. apply map_fold_preserves.
  - intros b row Hb. by rewrite lookup_empty in Hb.
  - intros a row acc Hacc. unfold transpose_outer.
    apply map_fold_preserves; [done|].
    intros b tb acc' Hacc'. unfold transpose_inner.
    destruct (TokenBalances.__bool__ tb); [|done].
    by apply iadd_item2_rows_nonempty.
Qed.
End transposition.

(** [inverted[label][wallet] += tbalances], the first time the wallet is
    met under the label. *)
Lemma inverted_step_eq (wallet : N) (label : string) (tb : gmap N Balance.t)
    (inv : gmap string (gmap N (gmap N Balance.t))) :
  lookup2 inv label wallet = None →
  PortfolioBalances.inverted_step wallet label tb inv
  = Ok (iadd_item2 wallet label tb inv).
Proof.
  unfold PortfolioBalances.inverted_step, iadd_item2, lookup2,
    PortfolioBalancesByCategory.__getitem__, WalletBalancesRaw.iadd_item,
    WalletBalancesRaw.__getitem__, WalletBalancesRaw.__setitem__.
  destruct (inv !! label) as [raw|] eqn:Hraw; simpl.
  - intros ->. rewrite TokenBalances_add_empty_l. simpl.
    by rewrite insert_insert_eq.
  - intros _. rewrite lookup_empty, TokenBalances_add_empty_l. simpl.
    by rewrite !insert_insert_eq.
Qed.

Lemma inverted_outer_eq (wallet : N) (wb : gmap string (gmap N Balance.t))
    (inv : gmap string (gmap N (gmap N Balance.t))) :
  (∀ label, lookup2 inv label wallet = None) →
  PortfolioBalances.inverted_outer wallet wb (Ok inv)
  = Ok (transpose_outer wallet wb inv).
Proof.
  intros Hfresh.
  unfold PortfolioBalances.inverted_outer, transpose_outer.
  rewrite (map_fold_result (λ _ _, True)
    (PortfolioBalances.inverted_inner wallet) (transpose_inner wallet)
    AttributeError).
  - by rewrite decide_True.
  - done.
  - intros label tb wb' Hlabel _ _.
    assert (lookup2 (map_fold (transpose_inner wallet) inv wb') label wallet
            = None) as Hcell.
    { change (map_fold (transpose_inner wallet) inv wb')
        with (transpose_outer wallet wb' inv).
      by rewrite transpose_outer_lookup2, Hlabel. }
    set (s := map_fold (transpose_inner wallet) inv wb') in *.
    unfold PortfolioBalances.inverted_inner, transpose_inner. simpl.
    destruct (TokenBalances.__bool__ tb); [|done].
    by apply inverted_step_eq.
  - intros label tb wb' _ _ Hbad. by destruct Hbad.
Qed.

(** [inverted] never raises: each wallet is met once, so each addition is
    onto an empty [TokenBalances()]. *)
Lemma inverted_transpose (p : gmap N (gmap string (gmap N Balance.t))) :
  PortfolioBalances.inverted p = Ok (transpose p).
Proof.
  unfold PortfolioBalances.inverted, transpose. cbv zeta.
  rewrite (map_fold_result (λ _ _, True)
    PortfolioBalances.inverted_outer transpose_outer AttributeError).
  - by rewrite decide_True.
  - intros wallet wb. unfold PortfolioBalances.inverted_outer.
    by apply map_fold_Raise_init.
  - intros wallet wb p' Hwallet _ _. apply inverted_outer_eq.
    intros label.
    change (map_fold transpose_outer ∅ p') with (transpose p').
    rewrite transpose_lookup2. unfold lookup2. by rewrite Hwallet.
  - intros wallet wb p' _ _ Hbad. by destruct Hbad.
Qed.

(** [inverted[wallet][label] += tbalances], the first time the label is
    met under the wallet, for a label that [WalletBalances] accepts. *)
Lemma invert_step_eq (label : string) (wallet : N) (tb : gmap N Balance.t)
    (inv : gmap N (gmap string (gmap N Balance.t))) :
  label ∈ ["assets"; "debt"]%string →
  lookup2 inv wallet label = None →
  PortfolioBalancesByCategory_invert.invert_step label wallet tb inv
  = Ok (iadd_item2 label wallet tb inv).
Proof.
  intros Hlabel.
  unfold PortfolioBalancesByCategory_invert.invert_step, iadd_item2, lookup2,
    PortfolioBalances.__getitem__.
  destruct (inv !! wallet) as [wb|] eqn:Hwb; simpl.
  - intros Hcell.
    rewrite WalletBalances_iadd_item_fresh by (by rewrite ?Hcell). done.
  - intros _.
    rewrite WalletBalances_iadd_item_fresh by (by rewrite ?lookup_empty).
    simpl. by rewrite insert_insert_eq.
Qed.

Lemma invert_step_invalid (label : string) (wallet : N)
    (tb : gmap N Balance.t) (inv : gmap N (gmap string (gmap N Balance.t))) :
  label ∉ ["assets"; "debt"]%string →
  PortfolioBalancesByCategory_invert.invert_step label wallet tb inv
  = Raise KeyError.
Proof.
  intros Hl. unfold PortfolioBalancesByCategory_invert.invert_step.
  destruct (PortfolioBalances.__getitem__ inv wallet) as [wb inv1].
  by rewrite WalletBalances_iadd_item_invalid.
Qed.

Lemma invert_outer_eq (label : string) (row : gmap N (gmap N Balance.t))
    (inv : gmap N (gmap string (gmap N Balance.t))) :
  (∀ wallet, lookup2 inv wallet label = None) →
  PortfolioBalancesByCategory_invert.invert_outer label row (Ok inv) =
    if decide (map_Forall (λ _ tb, TokenBalances.__bool__ tb = true →
                                   label ∈ ["assets"; "debt"]%string) row)
    then Ok (transpose_outer label row inv)
    else Raise KeyError.
Proof.
  intros Hfresh.
  unfold PortfolioBalancesByCategory_invert.invert_outer, transpose_outer.
  apply (map_fold_result
    (λ (_ : N) tb, TokenBalances.__bool__ tb = true →
                   label ∈ ["assets"; "debt"]%string)
    (PortfolioBalancesByCategory_invert.invert_inner label)
    (transpose_inner label) KeyError).
  - done.
  - intros wallet tb row' Hwallet _ Hgood.
    assert (lookup2 (map_fold (transpose_inner label) inv row') wallet label
            = None) as Hcell.
    { change (map_fold (transpose_inner label) inv row')
        with (transpose_outer label row' inv).
      by rewrite transpose_outer_lookup2, Hwallet. }
    set (s := map_fold (transpose_inner label) inv row') in *.
    unfold PortfolioBalancesByCategory_invert.invert_inner, transpose_inner.
    simpl. destruct (TokenBalances.__bool__ tb) eqn:Htb; [|done].
    apply invert_step_eq; [by apply Hgood|done].
  - intros wallet tb row' _ _ Hbad.
    unfold PortfolioBalancesByCategory_invert.invert_inner. simpl.
    destruct (TokenBalances.__bool__ tb) eqn:Htb; [|by destruct Hbad].
    apply invert_step_invalid. intros Hl. by apply Hbad.
Qed.

Lemma invert_eq (q : gmap string (gmap N (gmap N Balance.t))) :
  PortfolioBalancesByCategory_invert.invert q =
    if decide (accepted_labels q) then Ok (transpose q) else Raise KeyError.
Proof.
  unfold PortfolioBalancesByCategory_invert.invert, transpose,
    accepted_labels. cbv zeta.
  assert (∀ label (row : gmap N (gmap N Balance.t))
            (q' : gmap string (gmap N (gmap N Balance.t))),
            q' !! label = None →
            ∀ wallet, lookup2 (map_fold transpose_outer ∅ q') wallet label
                      = None) as Hfresh.
  { intros label row q' Hlabel wallet.
    change (map_fold transpose_outer ∅ q') with (transpose q').
    rewrite transpose_lookup2. unfold lookup2. by rewrite Hlabel. }
  apply (map_fold_result
    (λ label row,
       map_Forall (λ _ tb, TokenBalances.__bool__ tb = true →
                           label ∈ ["assets"; "debt"]%string) row)
    PortfolioBalancesByCategory_invert.invert_outer transpose_outer KeyError).
  - intros label row.
    unfold PortfolioBalancesByCategory_invert.invert_outer.
    by apply map_fold_Raise_init.
  - intros label row q' Hlabel _ Hgood.
    rewrite invert_outer_eq by (by apply Hfresh).
    by rewrite decide_True.
  - intros label row q' Hlabel _ Hbad.
    rewrite invert_outer_eq by (by apply Hfresh).
    by rewrite decide_False.
Qed.

Lemma invert_transpose (inv : gmap string (gmap N (gmap N Balance.t))) :
  map_Forall (λ label _, label ∈ ["assets"; "debt"]%string) inv →
  PortfolioBalancesByCategory_invert.invert inv = Ok (transpose inv).
Proof.
  intros Hvalid. rewrite invert_eq. rewrite decide_True; [done|].
  intros label row Hrow wallet tb _ _. by apply (Hvalid label row).
Qed.

(** The non-zero Money entries of [inverted(p)] are those of [p]. *)
Lemma transpose_nonzero_entries (p : gmap N (gmap string (gmap N Balance.t)))
    (wallet : N) (label : string) (token : N) :
  nonzero (lookup2 (transpose p) label wallet ≫= (.!! token))
  = nonzero (lookup2 p wallet label ≫= (.!! token)).
Proof.
  rewrite transpose_lookup2.
  destruct (lookup2 p wallet label) as [tb|]; simpl; [|done].
  destruct (TokenBalances.__bool__ tb) eqn:Htb; simpl.
  - by rewrite nonzero_entries_lookup, nonzero_idemp.
  - by rewrite TokenBalances_falsy_nonzero.
Qed.

Lemma transpose_pruned_lookup2 `{Countable K1, Countable K2}
    (m : gmap K1 (gmap K2 (gmap N Balance.t))) (b : K2) (a : K1) :
  entries_nonzero m → entries_nonempty m →
  lookup2 (transpose m) b a = lookup2 m a b.
Proof.
  intros Hnz Hne. rewrite transpose_lookup2. unfold lookup2.
  destruct (m !! a) as [row|] eqn:Hrow; simpl; [|done].
  destruct (row !! b) as [tb|] eqn:Htb; simpl; [|done].
  destruct (Hne a row Hrow) as [_ Hne'].
  rewrite TokenBalances_nonzero_truthy.
  - by rewrite nonzero_entries_id by exact (Hnz a row Hrow b tb Htb).
  - exact (Hne' b tb Htb).
  - exact (Hnz a row Hrow b tb Htb).
Qed.

Lemma transpose_pruned `{Countable K1, Countable K2}
    (m : gmap K1 (gmap K2 (gmap N Balance.t))) :
  entries_nonzero m → entries_nonempty m →
  entries_nonzero (transpose m) ∧ entries_nonempty (transpose m).
Proof.
  intros Hnz Hne.
  assert (∀ b row a tb, transpose m !! b = Some row → row !! a = Some tb →
            lookup2 m a b = Some tb) as Hback.
  { intros b row a tb Hrow Htb. rewrite <-transpose_pruned_lookup2 by done.
    unfold lookup2. by rewrite Hrow. }
  split.
  - intros b row Hrow a tb Htb. specialize (Hback b row a tb Hrow Htb).
    unfold lookup2 in Hback.
    destruct (m !! a) as [row'|] eqn:Hrow'; simpl in Hback; [|done].
    exact (Hnz a row' Hrow' b tb Hback).
  - intros b row Hrow. split; [by eapply (transpose_rows_nonempty m)|].
    intros a tb Htb. specialize (Hback b row a tb Hrow Htb).
    unfold lookup2 in Hback.
    destruct (m !! a) as [row'|] eqn:Hrow'; simpl in Hback; [|done].
    destruct (Hne a row' Hrow') as [_ Hne']. exact (Hne' b tb Hback).
Qed.

Lemma transpose_transpose `{Countable K1, Countable K2}
    (m : gmap K1 (gmap K2 (gmap N Balance.t))) :
  entries_nonzero m → entries_nonempty m →
  transpose (transpose m) = m.
Proof.
  intros Hnz Hne. destruct (transpose_pruned m Hnz Hne) as [Hnz' Hne'].
  apply rows_nonempty_ext.
  - apply transpose_rows_nonempty.
  - intros a row Hrow. by destruct (Hne a row Hrow).
  - intros a b. rewrite transpose_pruned_lookup2 by done.
    by rewrite transpose_pruned_lookup2.
Qed.

Lemma invert_inverted (p : gmap N (gmap string (gmap N Balance.t))) :
  money_nonzero p → no_empty_entry p → valid_categories p →
  ∃ q, PortfolioBalances.inverted p = Ok q
       ∧ PortfolioBalancesByCategory_invert.invert q = Ok p.
Proof.
  intros Hmoney Hne Hvalid. exists (transpose p).
  split; [apply inverted_transpose|].
  rewrite invert_transpose.
  - f_equal. by apply transpose_transpose.
  - intros label row Hrow.
    destruct (map_choose row) as (wallet & tb & Htb);
      [by eapply (transpose_rows_nonempty p)|].
    assert (lookup2 (transpose p) label wallet = Some tb) as Hl
      by (unfold lookup2; by rewrite Hrow).
    rewrite transpose_pruned_lookup2 in Hl by done.
    unfold lookup2 in Hl.
    destruct (p !! wallet) as [wb|] eqn:Hwb; simpl in Hl; [|done].
    exact (Hvalid wallet wb Hwb label tb Hl).
Qed.

(** ** Decimal: digits, rounding and the context precision *)

Lemma ndigits_fuel_spec (fuel : nat) (n : Z) :
  1 ≤ n → Z.log2 n ≤ Z.of_nat fuel →
  1 ≤ Decimal.ndigits_fuel fuel n
  ∧ 10 ^ (Decimal.ndigits_fuel fuel n - 1) ≤ n < 10 ^ Decimal.ndigits_fuel fuel n.
Proof.
  revert n. induction fuel as [|fuel IH]; intros n Hn Hlog.
  - assert (n < 2).
    { destruct (Z.lt_ge_cases n 2) as [|Hge]; [done|].
      pose proof (Z.log2_le_mono 2 n Hge) as Hl.
      change (Z.log2 2) with 1 in Hl. lia. }
    simpl. lia.
  - simpl. destruct (Z.ltb_spec n 10) as [Hlt|Hge]; [simpl; lia|].
    assert (1 ≤ n / 10) as Hq by (apply Z.div_le_lower_bound; lia).
    assert (Z.log2 (n / 10) ≤ Z.of_nat fuel) as Hlog'.
    { assert (2 * (n / 10) ≤ n) as Hle.
      { pose proof (Z.div_mod n 10 ltac:(lia)) as Hdm.
        pose proof (Z.mod_pos_bound n 10 ltac:(lia)) as Hmod. lia. }
      pose proof (Z.log2_le_mono _ _ Hle) as Hl.
      rewrite Z.log2_double in Hl by lia. lia. }
    destruct (IH (n / 10) Hq Hlog') as (Hr & Hlo & Hhi).
    set (r := Decimal.ndigits_fuel fuel (n / 10)) in *.
    replace (1 + r - 1) with (Z.succ (r - 1)) by lia.
    replace (1 + r) with (Z.succ r) by lia.
    rewrite !Z.pow_succ_r by lia.
    pose proof (Z.div_mod n 10 ltac:(lia)) as Hdm.
    pose proof (Z.mod_pos_bound n 10 ltac:(lia)) as Hmod.
    lia.
Qed.

Lemma ndigits_spec (c : Z) :
  c ≠ 0 →
  1 ≤ Decimal.ndigits c
  ∧ 10 ^ (Decimal.ndigits c - 1) ≤ Z.abs c < 10 ^ Decimal.ndigits c.
Proof.
  intros Hc. unfold Decimal.ndigits. apply ndigits_fuel_spec; [lia|].
  rewrite Z2Nat.id by apply Z.log2_nonneg. lia.
Qed.

Lemma ndigits_zero : Decimal.ndigits 0 = 1.
Proof. reflexivity. Qed.

Lemma ndigits_pos (c : Z) : 1 ≤ Decimal.ndigits c.
Proof.
  destruct (decide (c = 0)) as [->|Hc]; [by rewrite ndigits_zero|].
  by apply ndigits_spec.
Qed.

Lemma ndigits_le (c k : Z) :
  1 ≤ k → Z.abs c < 10 ^ k → Decimal.ndigits c ≤ k.
Proof.
  intros Hk Hlt. destruct (decide (c = 0)) as [->|Hc];
    [by rewrite ndigits_zero|].
  destruct (ndigits_spec c Hc) as (Hr & Hlo & _).
  destruct (Z.le_gt_cases (Decimal.ndigits c) k) as [|Hgt]; [done|].
  assert (10 ^ k ≤ 10 ^ (Decimal.ndigits c - 1))
    by (apply Z.pow_le_mono_r; lia).
  lia.
Qed.

Lemma round_half_even_bound (c k : Z) :
  0 ≤ k →
  Z.abs (Decimal.round_half_even c k) ≤ Z.abs c / 10 ^ k + 1.
Proof.
  intros Hk. unfold Decimal.round_half_even. cbv zeta.
  assert (0 < 10 ^ k) as Hp by (apply Z.pow_pos_nonneg; lia).
  assert (0 ≤ Z.abs c / 10 ^ k) as Hq by (apply Z.div_pos; lia).
  rewrite Z.abs_mul.
  assert (Z.abs (Z.sgn c) ≤ 1) as Hs by (destruct c; simpl; lia).
  repeat case_match; nia.
Qed.

(** After [_fix] the coefficient fits the context precision. *)
Lemma fix_ndigits (self : Decimal.t) :
  Decimal.ndigits (Decimal.coef (Decimal._fix self)) ≤ Decimal.prec.
Proof.
  unfold Decimal._fix, Decimal.prec. destruct self as [c e]. simpl.
  destruct (Z.eqb_spec c 0) as [->|Hc]; [simpl; by rewrite ndigits_zero|].
  destruct (ndigits_spec c Hc) as (Hr & Hlo & Hhi).
  set (nd := Decimal.ndigits c) in *.
  destruct (Z.ltb_spec e (nd + e - 28)) as [Hlt|Hge]; [|simpl; lia].
  set (k := nd + e - 28 - e).
  assert (1 ≤ k) as Hk by lia.
  set (coeff := Decimal.round_half_even c k).
  assert (Z.abs coeff ≤ 10 ^ 28) as Hcoeff.
  { pose proof (round_half_even_bound c k ltac:(lia)) as Hb.
    fold coeff in Hb.
    assert (Z.abs c / 10 ^ k < 10 ^ 28); [|lia].
    apply Z.div_lt_upper_bound; [apply Z.pow_pos_nonneg; lia|].
    rewrite <-Z.pow_add_r by lia.
    replace (k + 28) with nd by lia. done. }
  destruct (Z.ltb_spec 28 (Decimal.ndigits coeff)) as [Hbig|Hok];
    [|simpl; lia].
  simpl. apply ndigits_le; [lia|].
  assert (Z.abs (coeff / 10) ≤ 10 ^ 27); [|lia].
  change (10 ^ 28) with (10 * 10 ^ 27) in Hcoeff.
  pose proof (Z.div_mod coeff 10 ltac:(lia)) as Hdm.
  pose proof (Z.mod_pos_bound coeff 10 ltac:(lia)) as Hmod.
  lia.
Qed.

(** [round(self, 18)] raises nothing but [InvalidOperation], and raises it
    on a coefficient within the context precision only when the exponent
    is above -18, that is when the number has fewer than 18 fractional
    digits. *)
Lemma round_raises (self : Decimal.t) (e : exn) :
  Decimal.ndigits (Decimal.coef self) ≤ Decimal.prec →
  Decimal.__round__ self 18 = Raise e →
  e = InvalidOperation ∧ -18 < Decimal.exp self.
Proof.
  unfold Decimal.__round__, Decimal.quantize, Decimal.adjusted, Decimal.prec.
  destruct self as [c x]. simpl. intros Hnd.
  change (- (18)) with (-18).
  destruct (Z.eqb_spec c 0) as [->|Hc]; [done|].
  destruct (Z.ltb_spec 28 (x + Decimal.ndigits c - 1 - -18 + 1)) as [Ha|Ha].
  { intros [= Heq]. subst e. split; [done|lia]. }
  destruct (Z.ltb_spec 28
    (Decimal.ndigits (Decimal.coef (Decimal._rescale (Decimal.mk c x) (-18)))))
    as [Hb|Hb]; [|done].
  intros [= Heq]. subst e. split; [done|].
  destruct (Z.le_gt_cases x (-18)) as [Hx|]; [exfalso|lia].
  revert Hb. unfold Decimal._rescale. simpl.
  destruct (Z.eqb_spec c 0) as [|_]; [done|].
  destruct (ndigits_spec c Hc) as (Hr & Hlo & Hhi).
  assert (Z.abs c < 10 ^ 28) as Hc28.
  { eapply Z.lt_le_trans; [exact Hhi|]. apply Z.pow_le_mono_r; lia. }
  destruct (Z.leb_spec (-18) x) as [Hle|Hgt]; simpl.
  - replace x with (-18) by lia. simpl. rewrite Z.mul_1_r. lia.
  - assert (Decimal.ndigits (Decimal.round_half_even c (-18 - x)) ≤ 28);
      [|lia].
    apply ndigits_le; [lia|].
    pose proof (round_half_even_bound c (-18 - x) ltac:(lia)) as Hbd.
    assert (Z.abs c / 10 ^ (-18 - x) < 10 ^ 27); [|lia].
    apply Z.div_lt_upper_bound; [apply Z.pow_pos_nonneg; lia|].
    assert (10 ^ 1 ≤ 10 ^ (-18 - x)) by (apply Z.pow_le_mono_r; lia).
    change (10 ^ 28) with (10 ^ 1 * 10 ^ 27) in Hc28.
    nia.
Qed.

(** [_calc_value] never raises: an absent price gives zero, a product that
    [round] accepts is rounded to 18 places, and the product that [round]
    refuses is returned as it is and has fewer than 18 fractional digits. *)
Lemma calc_value_spec (balance : Decimal.t) (price : option Decimal.t) :
  match price with
  | None => _calc_value balance price = Ok (Decimal.of_Z 0)
  | Some p =>
      let product := Decimal.__mul__ balance p in
      (∃ rounded, Decimal.__round__ product 18 = Ok rounded
                  ∧ _calc_value balance price = Ok rounded)
      ∨ (Decimal.__round__ product 18 = Raise InvalidOperation
         ∧ _calc_value balance price = Ok product
         ∧ -18 < Decimal.exp product)
  end.
Proof.
  destruct price as [p|]; [|done]. cbv zeta. unfold _calc_value.
  destruct (Decimal.__round__ (Decimal.__mul__ balance p) 18)
    as [rounded|e] eqn:Hround.
  - left. eauto.
  - right. destruct (round_raises _ e (fix_ndigits _) Hround) as [-> Hexp].
    done.
Qed.

(** * The claims about typing.py *)

(** C3: [add(c1, c2)] is claimed to hold exactly the keys whose combined
    value is non-zero, each with the sum of the two values, so that
    [add({TOK: Money(5,50)}, {TOK: Money(-5,-50)})] is empty.
    [TokenBalances.__add__] returns no sum at all: for a token with a
    non-zero balance in both operands its second loop calls
    [combined.__getattr_nochecksum], a name that the class body mangles
    to an attribute nobody defines, and [AttributeError] is raised, at
    the input of the claim as for every two operands that share such a
    token.  Operands that share none are merged as the claim says. *)
Theorem TokenBalances_add_shared_token_raises :
  TokenBalances.__add__ {[TOK := Balance.mk (dec 5) (dec 50)]}
                        {[TOK := Balance.mk (dec (-5)) (dec (-50))]}
  = Raise AttributeError
  ∧ (∀ (self other : gmap N Balance.t) (k : N) (a b : Balance.t),
       self !! k = Some a → other !! k = Some b →
       Balance.__bool__ a = true → Balance.__bool__ b = true →
       TokenBalances.__add__ self other = Raise AttributeError)
  ∧ TokenBalances.__add__ {[TOK := Balance.mk (dec 5) (dec 50)]}
                          {[TOK2 := Balance.mk (dec (-5)) (dec (-50))]}
    = Ok {[TOK := Balance.mk (dec 5) (dec 50);
           TOK2 := Balance.mk (dec (-5)) (dec (-50))]}.
Proof.
  split; [vm_compute; reflexivity|]. split; [|vm_compute; reflexivity].
  intros self other k a b Ha Hb Hta Htb. rewrite TokenBalances_add_eq.
  rewrite decide_False; [done|]. intros Hd.
  specialize (Hd k b Hb Htb). rewrite Ha in Hd. simpl in Hd.
  by rewrite Hta in Hd.
Qed.



(** C7: an item read or an item assignment on a WalletBalances with a key
    other than ['assets'] and ['debt'] raises [KeyError]; with one of
    these two keys neither raises; assigning [WalletBalances["collateral"]]
    raises. *)
Theorem WalletBalances_category_domain
    (self : gmap string (gmap N Balance.t)) (key : string)
    (value : gmap N Balance.t) :
  (key ∉ ["assets"; "debt"]%string →
     WalletBalances.__getitem__ self key = Raise KeyError
     ∧ WalletBalances.__setitem__ self key value = Raise KeyError)
  ∧ (key ∈ ["assets"; "debt"]%string →
     is_Ok (WalletBalances.__getitem__ self key) = true
     ∧ WalletBalances.__setitem__ self key value = Ok (<[key := value]> self))
  ∧ WalletBalances.__setitem__ self "collateral" value = Raise KeyError.
Proof.
  split; [|split].
  - intros Hkey. unfold WalletBalances.__getitem__, WalletBalances.__setitem__.
    by rewrite validateitem_invalid.
  - intros Hkey. rewrite WalletBalances_getitem_valid by done.
    unfold WalletBalances.__setitem__. by rewrite validateitem_valid.
  - reflexivity.
Qed.

Lemma WalletBalances_category_domain_witness :
  (WalletBalances.__getitem__ ∅ "external" = Raise KeyError
   ∧ WalletBalances.__setitem__ ∅ "external" {[TOK := Balance.mk (dec 1) (dec 2)]}
     = Raise KeyError)
  ∧ (is_Ok (WalletBalances.__getitem__ ∅ "debt") = true
     ∧ WalletBalances.__setitem__ ∅ "debt" {[TOK := Balance.mk (dec 1) (dec 2)]}
       = Ok {["debt"%string := {[TOK := Balance.mk (dec 1) (dec 2)]}]}).
Proof.
  split.
  - apply (WalletBalances_category_domain ∅ "external"
             {[TOK := Balance.mk (dec 1) (dec 2)]}).
    compute_done.
  - apply (WalletBalances_category_domain ∅ "debt"
             {[TOK := Balance.mk (dec 1) (dec 2)]}).
    compute_done.
Defined.

(** C9: for every WalletBalances, [sum_usd()] is [assets.sum_usd()] minus
    [debt.sum_usd()], the debt being stored with its positive magnitude and
    subtracted here only; for [{assets: {TOK: Money(10, 100)}, debt: {TOK2:
    Money(2, 20)}}] the net value is 80. *)
Theorem WalletBalances_sum_usd_net (self : gmap string (gmap N Balance.t)) :
  (fst <$> WalletBalances.sum_usd self) =
    Ok (TokenBalances.sum_usd (default ∅ (self !! "assets"%string))
        - TokenBalances.sum_usd (default ∅ (self !! "debt"%string)))%Qc
  ∧ WalletBalances.__init__
      [("assets"%string, {[TOK := Balance.mk (dec 10) (dec 100)]});
       ("debt"%string, {[TOK2 := Balance.mk (dec 2) (dec 20)]})]
    = Ok {["assets"%string := {[TOK := Balance.mk (dec 10) (dec 100)]};
           "debt"%string := {[TOK2 := Balance.mk (dec 2) (dec 20)]}]}
  ∧ (fst <$> WalletBalances.sum_usd
               {["assets"%string := {[TOK := Balance.mk (dec 10) (dec 100)]};
                 "debt"%string := {[TOK2 := Balance.mk (dec 2) (dec 20)]}]})
    = Ok (dec 80).
Proof.
  split; [apply WalletBalances_sum_usd_value|].
  split; vm_compute; reflexivity.
Qed.

(** C10: reading a missing valid key of a TokenBalances or of a
    WalletBalances returns the zero value of the level below and stores it
    under that key: the key set grows by the key read, while [__bool__]
    and [sum_usd] of the container stay as they were. *)
Theorem missing_key_read_inserts_default :
  (∀ (self : gmap N Balance.t) (key : N),
     self !! key = None →
     TokenBalances.__getitem__ self key
       = (Balance.default, <[key := Balance.default]> self)
     ∧ (key ∉ dom self)
     ∧ dom (<[key := Balance.default]> self) = {[key]} ∪ dom self
     ∧ TokenBalances.__bool__ (<[key := Balance.default]> self)
       = TokenBalances.__bool__ self
     ∧ TokenBalances.sum_usd (<[key := Balance.default]> self)
       = TokenBalances.sum_usd self)
  ∧ (∀ (self : gmap string (gmap N Balance.t)) (key : string),
     key ∈ ["assets"; "debt"]%string →
     self !! key = None →
     WalletBalances.__getitem__ self key = Ok (∅, <[key := ∅]> self)
     ∧ (key ∉ dom self)
     ∧ dom (<[key := (∅ : gmap N Balance.t)]> self) = {[key]} ∪ dom self
     ∧ WalletBalances.__bool__ (<[key := ∅]> self)
       = WalletBalances.__bool__ self
     ∧ (fst <$> WalletBalances.sum_usd (<[key := ∅]> self))
       = (fst <$> WalletBalances.sum_usd self)).
Proof.
  split.
  - intros self key Hkey. repeat split.
    + unfold TokenBalances.__getitem__. by rewrite Hkey.
    + by apply not_elem_of_dom.
    + apply dom_insert_L.
    + by rewrite TokenBalances_bool_insert.
    + rewrite TokenBalances_sum_usd_insert by done. apply Qcplus_0_r.
  - intros self key Hvalid Hkey. repeat split.
    + rewrite WalletBalances_getitem_valid by done. by rewrite Hkey.
    + by apply not_elem_of_dom.
    + apply dom_insert_L.
    + by rewrite WalletBalances_bool_insert.
    + rewrite !WalletBalances_sum_usd_value. f_equal.
      apply valid_category_cases in Hvalid as [->| ->].
      * rewrite lookup_insert_eq, Hkey, lookup_insert_ne by done. done.
      * rewrite lookup_insert_eq, Hkey, lookup_insert_ne by done. done.
Qed.

Lemma missing_key_read_inserts_default_witness :
  (TokenBalances.__getitem__ {[TOK := Balance.mk (dec 10) (dec 100)]} TOK2
     = (Balance.default,
        <[TOK2 := Balance.default]> {[TOK := Balance.mk (dec 10) (dec 100)]})
   ∧ TokenBalances.sum_usd
       (<[TOK2 := Balance.default]> {[TOK := Balance.mk (dec 10) (dec 100)]})
     = TokenBalances.sum_usd {[TOK := Balance.mk (dec 10) (dec 100)]})
  ∧ (WalletBalances.__getitem__
       {["debt"%string := {[TOK2 := Balance.mk (dec 2) (dec 20)]}]} "assets"
     = Ok (∅, <["assets"%string := ∅]>
                {["debt"%string := {[TOK2 := Balance.mk (dec 2) (dec 20)]}]})
     ∧ WalletBalances.__bool__
         (<["assets"%string := ∅]>
            {["debt"%string := {[TOK2 := Balance.mk (dec 2) (dec 20)]}]})
       = WalletBalances.__bool__
           {["debt"%string := {[TOK2 := Balance.mk (dec 2) (dec 20)]}]}).
Proof.
  destruct missing_key_read_inserts_default as [Htb Hwb]. split.
  - destruct (Htb {[TOK := Balance.mk (dec 10) (dec 100)]} TOK2)
      as (Hget & _ & _ & _ & Hsum); [reflexivity|]. by split.
  - destruct (Hwb {["debt"%string := {[TOK2 := Balance.mk (dec 2) (dec 20)]}]}
                  "assets"%string)
      as (Hget & _ & _ & Hbool & _); [compute_done|reflexivity|]. by split.
Defined.

(** C5: for every non-zero-pruned PortfolioBalances [p], one whose Money
    entries are all non-zero and that holds no empty TokenBalances and no
    empty WalletBalances, the zero values of their levels, under the
    category keys that a WalletBalances accepts, [inverted] returns the
    category-first view and [invert] of that view returns [p]; and for
    every [p] whatsoever the non-zero Money entries of [inverted(p)] are
    exactly those of [p]. *)
Theorem invert_inverted_roundtrip
    (p : gmap N (gmap string (gmap N Balance.t))) :
  (money_nonzero p → no_empty_entry p → valid_categories p →
   ∃ q, PortfolioBalances.inverted p = Ok q
        ∧ PortfolioBalancesByCategory_invert.invert q = Ok p)
  ∧ (∃ q, PortfolioBalances.inverted p = Ok q
          ∧ ∀ (wallet : N) (label : string) (token : N),
              nonzero (lookup2 q label wallet ≫= (.!! token))
              = nonzero (lookup2 p wallet label ≫= (.!! token))).
Proof.
  split; [apply invert_inverted|].
  exists (transpose p). split; [apply inverted_transpose|].
  apply transpose_nonzero_entries.
Qed.

Lemma invert_inverted_roundtrip_witness :
  let p : gmap N (gmap string (gmap N Balance.t)) :=
    {[WALLET := {["assets"%string := {[TOK := Balance.mk (dec 10) (dec 100)]};
                  "debt"%string := {[TOK2 := Balance.mk (dec 2) (dec 20)]}]}]} in
  PortfolioBalances.inverted p
  = Ok {["assets"%string :=
           {[WALLET := {[TOK := Balance.mk (dec 10) (dec 100)]}]};
         "debt"%string :=
           {[WALLET := {[TOK2 := Balance.mk (dec 2) (dec 20)]}]}]}
  ∧ ∃ q, PortfolioBalances.inverted p = Ok q
         ∧ PortfolioBalancesByCategory_invert.invert q = Ok p.
Proof.
  intros p. split; [vm_compute; reflexivity|].
  apply (invert_inverted_roundtrip p); compute_done.
Defined.

(** * The claims about address.py *)

Lemma settle_fan_out (r : Lookups) :
  settle r fan_out =
    {| s_eth_balance := Some (r_eth_balance r);
       s_token_balances := Some (r_token_balances r);
       s_debt := Some (r_debt r);
       s_staking := Some (r_staking r);
       s_collateral := Some (r_collateral r) |}.
Proof. reflexivity. Qed.

(** The three item assignments of [_describe_async]: the third one raises. *)
Lemma assign_items_external (a b c : gmap N Balance.t) :
  assign_items ∅ [("assets"%string, a); ("debt"%string, b);
                  ("external"%string, c)]
  = (<["debt"%string := b]> (<["assets"%string := a]> ∅), Raise KeyError).
Proof. reflexivity. Qed.

(** A run in which the five sub-requests have completed. *)
Lemma describe_async_fan_out (r : Lookups) (block : pyval) :
  _describe_async r fan_out block =
    if truthy block && isinstance_int block
    then
      match TokenBalances.__add__ (r_staking r) (r_collateral r) with
      | Ok _ =>
          {| issued := fan_out;
             balances :=
               <["debt"%string := r_debt r]>
                 (<["assets"%string :=
                      <[EEE_ADDRESS := r_eth_balance r]>
                        (r_token_balances r)]> ∅);
             outcome := Some (Raise KeyError) |}
      | Raise e =>
          {| issued := fan_out; balances := ∅; outcome := Some (Raise e) |}
      end
    else {| issued := []; balances := ∅;
            outcome := Some (Raise AssertionError) |}.
Proof.
  unfold _describe_async.
  destruct (truthy block); simpl; [|done].
  destruct (isinstance_int block); simpl; [|done].
  by destruct (TokenBalances.__add__ (r_staking r) (r_collateral r)).
Qed.

(** C1: [describe(wallet, block)] is claimed to return a WalletBalances
    with the categories ['assets'] and ['debt'], the staking and collateral
    balances merged into ['assets'].  [_describe_async] assigns their sum
    to [balances['external']], a key that [WalletBalances.__setitem__]
    rejects: whatever the sub-requests return and whatever the block, the
    coroutine returns no WalletBalances.  With a block that passes the two
    asserts it raises [KeyError], after ['assets'] and ['debt'] were
    assigned; when the staking and the collateral balances share a token,
    their sum has raised [AttributeError] before (C3). *)
Theorem describe_async_never_returns (r : Lookups) (order : list Leaf)
    (block : pyval) :
  (outcome (_describe_async r order block) = None
   ∨ outcome (_describe_async r order block) = Some (Raise AssertionError)
   ∨ outcome (_describe_async r order block) = Some (Raise KeyError)
   ∨ outcome (_describe_async r order block) = Some (Raise AttributeError))
  ∧ (disjoint_nonzero (r_staking r) (r_collateral r) →
     _describe_async r fan_out (PyInt 1) =
       {| issued := fan_out;
          balances :=
            <["debt"%string := r_debt r]>
              (<["assets"%string :=
                   <[EEE_ADDRESS := r_eth_balance r]> (r_token_balances r)]> ∅);
          outcome := Some (Raise KeyError) |})
  ∧ (¬ disjoint_nonzero (r_staking r) (r_collateral r) →
     outcome (_describe_async r fan_out (PyInt 1))
     = Some (Raise AttributeError)).
Proof.
  split; [|split].
  - unfold _describe_async.
    destruct (truthy block); simpl; [|auto].
    destruct (isinstance_int block); simpl; [|auto].
    unfold _external_balances_async.
    destruct (gather2 _ _) as [[staked collateral]|]; simpl; [|auto].
    rewrite TokenBalances_add_eq.
    destruct (decide (disjoint_nonzero staked collateral)); simpl; [|auto].
    destruct (_assets_async _) as [a|]; simpl; [|auto].
    destruct (_debt_async _) as [b|]; simpl; [|auto].
    right; right; left. reflexivity.
  - intros Hd. rewrite describe_async_fan_out, TokenBalances_add_eq. simpl.
    by rewrite decide_True.
  - intros Hd. rewrite describe_async_fan_out, TokenBalances_add_eq. simpl.
    by rewrite decide_False.
Qed.

Lemma describe_async_never_returns_witness :
  let r := {| r_eth_balance := Balance.mk (dec 3) (dec 6000);
              r_token_balances := {[TOK := Balance.mk (dec 10) (dec 100)]};
              r_debt := {[TOK2 := Balance.mk (dec 2) (dec 20)]};
              r_staking := {[TOK := Balance.mk (dec 1) (dec 10)]};
              r_collateral := {[TOK2 := Balance.mk (dec 4) (dec 40)]} |} in
  _describe_async r fan_out (PyInt 1) =
    {| issued := fan_out;
       balances :=
         <["debt"%string := {[TOK2 := Balance.mk (dec 2) (dec 20)]}]>
           (<["assets"%string :=
                <[EEE_ADDRESS := Balance.mk (dec 3) (dec 6000)]>
                  {[TOK := Balance.mk (dec 10) (dec 100)]}]> ∅);
       outcome := Some (Raise KeyError) |}.
Proof.
  intros r.
  apply (describe_async_never_returns r fan_out (PyInt 1)). compute_done.
Defined.

(** C4, as the code has it: a [describe] whose block is falsy ([0], [0.0],
    [False], [None]) or is not an [int] raises [AssertionError] before any
    sub-request is issued; a negative integer block passes both asserts,
    and the five sub-requests are issued. *)
Theorem describe_async_block_guard (r : Lookups) (order : list Leaf)
    (block : pyval) :
  (truthy block = false ∨ isinstance_int block = false →
     issued (_describe_async r order block) = []
     ∧ outcome (_describe_async r order block) = Some (Raise AssertionError))
  ∧ (∀ n : Z, block = PyInt n → n < 0 →
     issued (_describe_async r order block) = fan_out).
Proof.
  split.
  - intros [Hb|Hb]; unfold _describe_async; rewrite Hb; simpl; [done|].
    by destruct (truthy block).
  - intros n -> Hn. unfold _describe_async. simpl.
    destruct (Z.eqb_spec n 0) as [->|_]; [lia|]. simpl.
    by destruct (gather3 _ _ _) as [[[[a b] c]|e]|].
Qed.

Lemma describe_async_block_guard_witness :
  let r := {| r_eth_balance := Balance.mk (dec 3) (dec 6000);
              r_token_balances := ∅; r_debt := ∅;
              r_staking := ∅; r_collateral := ∅ |} in
  (issued (_describe_async r fan_out (PyInt 0)) = []
   ∧ outcome (_describe_async r fan_out (PyInt 0))
     = Some (Raise AssertionError))
  ∧ (issued (_describe_async r fan_out (PyFloat (Q2Qc (3 # 2)))) = []
     ∧ outcome (_describe_async r fan_out (PyFloat (Q2Qc (3 # 2))))
       = Some (Raise AssertionError))
  ∧ issued (_describe_async r fan_out (PyInt (-1))) = fan_out.
Proof.
  intros r. split; [|split].
  - apply (describe_async_block_guard r fan_out (PyInt 0)).
    left. reflexivity.
  - apply (describe_async_block_guard r fan_out (PyFloat (Q2Qc (3 # 2)))).
    right. reflexivity.
  - apply (describe_async_block_guard r fan_out (PyInt (-1)) ) with (n := -1).
    + reflexivity.
    + lia.
Defined.

(** C4, as claimed, fails at the block [-1]: the run does not stop at the
    asserts; the five sub-requests are issued and the exception raised
    afterwards is the [KeyError] of the item assignment. *)
Lemma describe_async_negative_block_fans_out :
  let r := {| r_eth_balance := Balance.mk (dec 3) (dec 6000);
              r_token_balances := ∅; r_debt := ∅;
              r_staking := ∅; r_collateral := ∅ |} in
  truthy (PyInt (-1)) = true
  ∧ isinstance_int (PyInt (-1)) = true
  ∧ issued (_describe_async r fan_out (PyInt (-1))) = fan_out
  ∧ outcome (_describe_async r fan_out (PyInt (-1))) = Some (Raise KeyError).
Proof. intros r. repeat split. Qed.

(** C8: price application is claimed never to propagate a failure.
    [_calc_value], used for the tokens, meets the claim: it never raises,
    gives zero for an absent price, the product rounded to 18 places when
    [round] accepts it, and else the product itself, which then has fewer
    than 18 fractional digits.  [_eth_balance_async], used for the native
    asset, does not: with 5,000,000 units at the price 2000 the product is
    10^10, which [round(..., 18)] cannot hold in 28 digits, and
    [InvalidOperation] propagates; with an absent price [Decimal(None)]
    raises [TypeError]. *)
Theorem eth_balance_async_propagates_failure :
  _eth_balance_async (Decimal.of_Z 5000000) (Some (Decimal.of_Z 2000))
    = Raise InvalidOperation
  ∧ _calc_value (Decimal.of_Z 5000000) (Some (Decimal.of_Z 2000))
    = Ok (Decimal.mk 10000000000 0)
  ∧ _eth_balance_async (Decimal.of_Z 5000000) None = Raise TypeError
  ∧ _calc_value (Decimal.of_Z 5000000) None = Ok (Decimal.of_Z 0)
  ∧ (∀ (balance price : Decimal.t),
       let product := Decimal.__mul__ balance price in
       (∃ rounded, Decimal.__round__ product 18 = Ok rounded
                   ∧ _calc_value balance (Some price) = Ok rounded)
       ∨ (Decimal.__round__ product 18 = Raise InvalidOperation
          ∧ _calc_value balance (Some price) = Ok product
          ∧ -18 < Decimal.exp product)).
Proof.
  split; [vm_compute; reflexivity|]. split; [vm_compute; reflexivity|].
  split; [reflexivity|]. split; [reflexivity|].
  intros balance price. apply (calc_value_spec balance (Some price)).
Qed.

(** * Further properties of typing.py *)

(** ** TokenBalances: seeds, sums, differences *)

Lemma Balance_add_default_l (b : Balance.t) :
  Balance.__add__ Balance.default b = b.
Proof.
  destruct b as [x y]. unfold Balance.__add__. simpl.
  by rewrite !Qcplus_0_l.
Qed.

Lemma seed_entries_cons {K V : Type} `{EqDecision K} (k t : K) (b : V)
    (l : list (K * V)) :
  seed_entries k ((t, b) :: l) =
    if decide (t = k) then b :: seed_entries k l else seed_entries k l.
Proof. unfold seed_entries. simpl. by case_decide. Qed.

Lemma iadd_item_lookup (self : gmap N Balance.t) (token k : N)
    (balance : Balance.t) :
  TokenBalances.iadd_item self token balance !! k =
    if decide (token = k)
    then Some (Balance.__add__ (default Balance.default (self !! token)) balance)
    else self !! k.
Proof.
  unfold TokenBalances.iadd_item, TokenBalances.__getitem__,
    TokenBalances.__setitem__.
  destruct (self !! token) as [old|] eqn:Hold; simpl;
    case_decide as Hk; subst.
  - by rewrite lookup_insert_eq.
  - by rewrite lookup_insert_ne.
  - by rewrite lookup_insert_eq.
  - by rewrite !lookup_insert_ne.
Qed.

Lemma foldl_iadd_item_lookup (seed : list (N * Balance.t))
    (self : gmap N Balance.t) (k : N) :
  foldl (λ self '(token, balance), TokenBalances.iadd_item self token balance)
        self seed !! k =
    match seed_entries k seed with
    | [] => self !! k
    | bs => Some (foldl Balance.__add__
                    (default Balance.default (self !! k)) bs)
    end.
Proof.
  revert self. induction seed as [|[token balance] seed IH]; intros self.
  - done.
  - rewrite seed_entries_cons. cbn [foldl]. rewrite IH, iadd_item_lookup.
    case_decide as Hk; subst; simpl; [|done].
    by destruct (seed_entries k seed).
Qed.

Lemma TokenBalances_init_entries (seed : list (N * Balance.t)) (k : N) :
  TokenBalances.__init__ seed !! k =
    match seed_entries k seed with
    | [] => None
    | bs => Some (foldl Balance.__add__ Balance.default bs)
    end.
Proof.
  unfold TokenBalances.__init__. rewrite foldl_iadd_item_lookup.
  by rewrite lookup_empty.
Qed.

Lemma seed_entries_nil {K V : Type} `{EqDecision K} (seed : list (K * V))
    (k : K) :
  seed_entries k seed ≠ [] ↔ k ∈ seed.*1.
Proof.
  induction seed as [|[t b] seed IH].
  - split; [intros Hn; by destruct Hn|by intros ?%elem_of_nil].
  - rewrite seed_entries_cons, fmap_cons, elem_of_cons.
    case_decide as Hk; subst; simpl.
    + split; [by left|done].
    + rewrite IH. split; [by right|]. intros [Heq|Hin]; [by subst|done].
Qed.

Lemma seed_entries_map_to_list `{Countable K} {V : Type} (m : gmap K V)
    (k : K) :
  seed_entries k (map_to_list m) =
    match m !! k with Some v => [v] | None => [] end.
Proof.
  pose proof (NoDup_fst_map_to_list m) as Hnd.
  assert (∀ t b, (t, b) ∈ map_to_list m ↔ m !! t = Some b) as Hin
    by (intros; apply elem_of_map_to_list).
  revert Hnd Hin. generalize (map_to_list m) as l.
  intros l. revert m. induction l as [|[t b] l IH]; intros m Hnd Hin.
  - simpl. destruct (m !! k) as [b|] eqn:Hk; [|done].
    apply Hin in Hk. by apply elem_of_nil in Hk.
  - simpl in Hnd. apply NoDup_cons in Hnd as [Ht Hnd].
    rewrite seed_entries_cons.
    assert (m !! t = Some b) as Htb by (apply Hin; left).
    case_decide as Hk; subst.
    + rewrite Htb. f_equal.
      rewrite (IH (delete k m)); [by rewrite lookup_delete_eq|done|].
      intros t' b'. rewrite lookup_delete_Some, <-Hin, elem_of_cons.
      split.
      * intros Hl. split; [|by right]. intros ->. apply Ht.
        apply list_elem_of_fmap. by exists (t', b').
      * intros [Hne [[= -> ->]|Hl]]; done.
    + rewrite (IH (delete t m)); [by rewrite lookup_delete_ne|done|].
      intros t' b'. rewrite lookup_delete_Some, <-Hin, elem_of_cons.
      split.
      * intros Hl. split; [|by right]. intros ->. apply Ht.
        apply list_elem_of_fmap. by exists (t', b').
      * intros [Hne [[= -> ->]|Hl]]; done.
Qed.

(** A dict given as seed is stored as it is, zero entries included. *)
Lemma TokenBalances_init_dict (self : gmap N Balance.t) :
  TokenBalances.__init__ (map_to_list self) = self.
Proof.
  apply map_eq; intros k.
  rewrite TokenBalances_init_entries, seed_entries_map_to_list.
  destruct (self !! k) as [b|]; [|done].
  simpl. by rewrite Balance_add_default_l.
Qed.

Lemma Balance_falsy (b : Balance.t) :
  Balance.__bool__ b = false → b = Balance.default.
Proof.
  destruct b as [x y]. unfold Balance.__bool__, Balance.default. simpl.
  intros [Hx Hy]%orb_false_iff.
  apply negb_false_iff, bool_decide_eq_true in Hx.
  apply negb_false_iff, bool_decide_eq_true in Hy. by subst.
Qed.

Lemma foldl_add_falsy (bs : list Balance.t) :
  Forall (λ b, Balance.__bool__ b = false) bs →
  foldl Balance.__add__ Balance.default bs = Balance.default.
Proof.
  induction 1 as [|b bs Hb _ IH]; [done|]. simpl.
  by rewrite (Balance_falsy b Hb).
Qed.

(** [TokenBalances(seed)] does not prune: its keys are the tokens that the
    seed lists, whatever their balances, and a token that the seed lists
    with zero balances only is stored with a zero balance. *)
Theorem TokenBalances_init_seed (seed : list (N * Balance.t)) (k : N) :
  (is_Some (TokenBalances.__init__ seed !! k) ↔ k ∈ seed.*1)
  ∧ (k ∈ seed.*1 →
     Forall (λ b, Balance.__bool__ b = false) (seed_entries k seed) →
     ∃ z, TokenBalances.__init__ seed !! k = Some z
          ∧ Balance.__bool__ z = false).
Proof.
  rewrite TokenBalances_init_entries, <-seed_entries_nil. split.
  - by destruct (seed_entries k seed); split.
  - intros Hk Hzero. exists Balance.default. split; [|done].
    destruct (seed_entries k seed) as [|b bs] eqn:Hs; [done|].
    by rewrite foldl_add_falsy.
Qed.

Lemma TokenBalances_init_seed_witness :
  ∃ z, TokenBalances.__init__
         [(TOK, Balance.mk (dec 10) (dec 100)); (TOK2, Balance.default)]
         !! TOK2 = Some z
       ∧ Balance.__bool__ z = false.
Proof.
  apply (TokenBalances_init_seed
           [(TOK, Balance.mk (dec 10) (dec 100)); (TOK2, Balance.default)]
           TOK2).
  - compute_done.
  - repeat constructor.
Defined.

(** The empty container is a neutral element of [__add__] only up to the
    zero entries: [self + TokenBalances()] and [TokenBalances() + self] are
    [self] without its zero entries, hence [self] itself exactly when it
    has none. *)
Theorem TokenBalances_add_empty (self : gmap N Balance.t) :
  TokenBalances.__add__ self ∅
    = Ok (filter (λ kb, Balance.__bool__ kb.2 = true) self)
  ∧ TokenBalances.__add__ ∅ self
    = Ok (filter (λ kb, Balance.__bool__ kb.2 = true) self)
  ∧ (TokenBalances.__add__ self ∅ = Ok self
     ↔ map_Forall (λ _ b, Balance.__bool__ b = true) self).
Proof.
  split; [apply TokenBalances_add_empty_r|].
  split; [apply TokenBalances_add_empty_l|].
  rewrite TokenBalances_add_empty_r. split.
  - intros [= Heq]. rewrite <-Heq. apply nonzero_entries_nonzero.
  - intros Hall. f_equal. by apply nonzero_entries_id.
Qed.

(** [self + other] never adds two balances: it raises [AttributeError]
    exactly when some token has a non-zero balance in both operands, and
    else returns the non-zero entries of the one next to those of the
    other; a container it returns holds no zero balance. *)
Theorem TokenBalances_add_spec (self other : gmap N Balance.t) :
  TokenBalances.__add__ self other =
    (if decide (disjoint_nonzero self other)
     then Ok (nonzero_entries self ∪ nonzero_entries other)
     else Raise AttributeError)
  ∧ (∀ combined, TokenBalances.__add__ self other = Ok combined →
       map_Forall (λ _ b, Balance.__bool__ b = true) combined).
Proof.
  rewrite TokenBalances_add_eq. split; [done|].
  destruct (decide (disjoint_nonzero self other)); [|done].
  intros combined [= <-] k b.
  rewrite lookup_union_Some_raw, !nonzero_entries_lookup.
  intros [Hb|[_ Hb]]; by apply nonzero_Some in Hb as [_ ?].
Qed.

Lemma TokenBalances_add_spec_witness :
  TokenBalances.__add__
    {[TOK := Balance.mk (dec 1) (dec 10); TOK2 := Balance.default]}
    {[TOK := Balance.mk (dec 4) (dec 40)]}
  = Raise AttributeError
  ∧ TokenBalances.__add__
      {[TOK := Balance.mk (dec 1) (dec 10); TOK2 := Balance.default]}
      {[TOK2 := Balance.mk (dec 4) (dec 40)]}
    = Ok {[TOK := Balance.mk (dec 1) (dec 10);
           TOK2 := Balance.mk (dec 4) (dec 40)]}.
Proof.
  split.
  - destruct (TokenBalances_add_spec
                {[TOK := Balance.mk (dec 1) (dec 10); TOK2 := Balance.default]}
                {[TOK := Balance.mk (dec 4) (dec 40)]}) as [-> _].
    vm_compute. reflexivity.
  - destruct (TokenBalances_add_spec
                {[TOK := Balance.mk (dec 1) (dec 10); TOK2 := Balance.default]}
                {[TOK2 := Balance.mk (dec 4) (dec 40)]}) as [-> _].
    vm_compute. reflexivity.
Defined.

Lemma isub_item_lookup (self : gmap N Balance.t) (token k : N)
    (balance : Balance.t) :
  TokenBalances.isub_item self token balance !! k =
    if decide (token = k)
    then Some (Balance.__sub__ (default Balance.default (self !! token)) balance)
    else self !! k.
Proof.
  unfold TokenBalances.isub_item, TokenBalances.__getitem__,
    TokenBalances.__setitem__.
  destruct (self !! token) as [old|] eqn:Hold; simpl;
    case_decide as Hk; subst.
  - by rewrite lookup_insert_eq.
  - by rewrite lookup_insert_ne.
  - by rewrite lookup_insert_eq.
  - by rewrite !lookup_insert_ne.
Qed.

Lemma sub_loop_difference (subtracted other : gmap N Balance.t) :
  map_fold (λ token balance subtracted,
              TokenBalances.isub_item subtracted token balance)
    subtracted other = difference subtracted other.
Proof.
  apply map_eq; intros k. unfold difference. rewrite lookup_merge.
  etrans.
  - apply (map_fold_view (I := unit)
      (λ token balance subtracted,
         TokenBalances.isub_item subtracted token balance)
      (λ s k _, s !! k)
      (λ _ b _ o, Some (Balance.__sub__ (default Balance.default o) b)))
      with (i := ()).
    + intros j b s _. rewrite isub_item_lookup. by rewrite decide_True.
    + intros j b s k' _ Hne. rewrite isub_item_lookup.
      by rewrite decide_False.
  - simpl. by destruct (subtracted !! k), (other !! k).
Qed.

Lemma prune_loop_changed `{Countable K} {V : Type} (truthy : V → bool)
    (items : list (K * V)) (used : nat) (d : gmap K V) :
  size d ≠ used → prune_loop truthy items used d = RuntimeError.
Proof.
  intros Hne. destruct items as [|[k v] items]; simpl;
    by rewrite bool_decide_eq_true_2.
Qed.

(** The pruning loop ends normally, with the dict untouched, when every
    item is truthy, and with [RuntimeError] when one is not. *)
Lemma prune_loop_spec `{Countable K} {V : Type} (truthy : V → bool)
    (items : list (K * V)) (used : nat) (d : gmap K V) :
  size d = used →
  (∀ k v, (k, v) ∈ items → is_Some (d !! k)) →
  prune_loop truthy items used d =
    if decide (Forall (λ kv, truthy kv.2 = true) items)
    then Finished d else RuntimeError.
Proof.
  intros Hsize. induction items as [|[k v] items IH]; intros Hin.
  - cbn [prune_loop].
    rewrite bool_decide_eq_false_2 by (intros Hn; by apply Hn).
    by rewrite decide_True.
  - cbn [prune_loop].
    rewrite bool_decide_eq_false_2 by (intros Hn; by apply Hn).
    destruct (truthy v) eqn:Hv.
    + rewrite IH by (intros k' v' Hi; apply (Hin k' v'); by right).
      destruct (decide (Forall _ items)) as [Hall|Hall].
      * rewrite decide_True; [done|]. by constructor.
      * rewrite decide_False; [done|]. by intros [_ ?]%Forall_cons.
    + rewrite prune_loop_changed.
      * rewrite decide_False; [done|].
        intros [Ht _]%Forall_cons. simpl in Ht. congruence.
      * destruct (Hin k v) as [x Hx]; [by left|].
        rewrite map_size_delete_Some by eauto.
        assert (size d ≠ 0%nat) as Hpos.
        { intros Hz%map_size_empty_inv. subst. by rewrite lookup_empty in Hx. }
        lia.
Qed.

Lemma prune_loop_items `{Countable K} {V : Type} (truthy : V → bool)
    (d : gmap K V) :
  prune_loop truthy (map_to_list d) (size d) d =
    if decide (map_Forall (λ _ v, truthy v = true) d)
    then Finished d else RuntimeError.
Proof.
  rewrite prune_loop_spec; [|done|].
  - destruct (decide (Forall _ _)) as [Hall|Hall].
    + rewrite decide_True; [done|]. apply map_Forall_to_list.
      eapply Forall_impl; [apply Hall|]. by intros [k v].
    + rewrite decide_False; [done|]. intros Hm%map_Forall_to_list.
      apply Hall. eapply Forall_impl; [apply Hm|]. by intros [k v].
  - intros k v Hin%elem_of_map_to_list. eauto.
Qed.

Lemma TokenBalances_sub_eq (self other : gmap N Balance.t) :
  TokenBalances.__sub__ self other =
    if decide (map_Forall (λ _ b, Balance.__bool__ b = true)
                 (difference self other))
    then Finished (difference self other)
    else RuntimeError.
Proof.
  unfold TokenBalances.__sub__. cbv zeta.
  rewrite TokenBalances_init_dict, sub_loop_difference.
  apply prune_loop_items.
Qed.

(** A zero balance cannot be subtracted away: when a token is a key of
    [self] or of [other] and neither holds a non-zero balance for it, its
    difference is zero, the pruning loop deletes it from the dict it is
    iterating, and [self - other] raises [RuntimeError] whatever the other
    tokens are. *)
Theorem TokenBalances_sub_zero_entry_raises (self other : gmap N Balance.t)
    (k : N) :
  is_Some (self !! k) ∨ is_Some (other !! k) →
  nonzero (self !! k) = None → nonzero (other !! k) = None →
  TokenBalances.__sub__ self other = RuntimeError.
Proof.
  intros Hk Hs Ho. rewrite TokenBalances_sub_eq.
  rewrite decide_False; [done|]. intros Hall.
  assert (∃ z, difference self other !! k = Some z
               ∧ Balance.__bool__ z = false) as (z & Hz & Hfalse).
  { unfold difference. rewrite lookup_merge.
    destruct (self !! k) as [a|] eqn:Ha, (other !! k) as [b|] eqn:Hb;
      simpl in *.
    - destruct (Balance.__bool__ a) eqn:Hta; [done|].
      destruct (Balance.__bool__ b) eqn:Htb; [done|].
      eexists. split; [done|].
      by rewrite (Balance_falsy a Hta), (Balance_falsy b Htb).
    - destruct (Balance.__bool__ a) eqn:Hta; [done|]. eauto.
    - destruct (Balance.__bool__ b) eqn:Htb; [done|].
      eexists. split; [done|]. by rewrite (Balance_falsy b Htb).
    - destruct Hk as [[? ?]|[? ?]]; done. }
  specialize (Hall k z Hz). simpl in Hall. congruence.
Qed.

Lemma TokenBalances_sub_zero_entry_raises_witness :
  TokenBalances.__sub__
    {[TOK := Balance.mk (dec 10) (dec 100); TOK2 := Balance.default]}
    {[TOK := Balance.mk (dec 4) (dec 40)]}
  = RuntimeError.
Proof.
  apply (TokenBalances_sub_zero_entry_raises _ _ TOK2).
  - left. compute_done.
  - reflexivity.
  - reflexivity.
Defined.

(** ** WalletBalances: seeds *)

Lemma WalletBalances_init_loop_Raise (seed : list (string * gmap N Balance.t))
    (e : exn) :
  foldl (λ acc '(category, balances),
           self ← acc; WalletBalances.iadd_item self category balances)
        (Raise e) seed = Raise e.
Proof. induction seed as [|[c tb] seed IH]; [done|apply IH]. Qed.

(** The loop of the constructor over a seed that lists no category twice:
    each addition is onto a missing or empty category. *)
Lemma WalletBalances_init_loop (seed : list (string * gmap N Balance.t))
    (self : gmap string (gmap N Balance.t)) :
  NoDup seed.*1 →
  (∀ c, c ∈ seed.*1 → default ∅ (self !! c) = ∅) →
  foldl (λ acc '(category, balances),
           self ← acc; WalletBalances.iadd_item self category balances)
        (Ok self) seed =
    if decide (Forall (λ cb, cb.1 ∈ ["assets"; "debt"]%string) seed)
    then Ok ((nonzero_entries <$> list_to_map seed) ∪ self)
    else Raise KeyError.
Proof.
  revert self. induction seed as [|[c tb] seed IH]; intros self Hnd Hfresh.
  - rewrite decide_True by constructor. simpl.
    by rewrite fmap_empty, (left_id_L ∅ union).
  - apply NoDup_cons in Hnd as [Hc Hnd]. cbn [foldl]. simpl.
    destruct (decide (c ∈ ["assets"; "debt"]%string)) as [Hv|Hv].
    + rewrite WalletBalances_iadd_item_fresh;
        [|done|apply Hfresh; by left].
      rewrite IH; [|done|].
      * destruct (decide (Forall _ seed)) as [Hall|Hall].
        -- rewrite decide_True by (by constructor). f_equal.
           rewrite fmap_insert, <-insert_union_l. symmetry.
           apply insert_union_r. rewrite lookup_fmap.
           by rewrite (not_elem_of_list_to_map_1 _ c Hc).
        -- rewrite decide_False; [done|]. by intros [_ ?]%Forall_cons.
      * intros c' Hc'. rewrite lookup_insert_ne by (intros ->; done).
        apply Hfresh. by right.
    + rewrite WalletBalances_iadd_item_invalid by done.
      rewrite WalletBalances_init_loop_Raise.
      rewrite decide_False; [done|]. by intros [? _]%Forall_cons.
Qed.



Lemma WalletBalances_init_dict (self : gmap string (gmap N Balance.t)) :
  WalletBalances.__init__ (map_to_list self) =
    if decide (valid_keys self)
    then Ok (nonzero_entries <$> self)
    else Raise KeyError.
Proof.
  unfold WalletBalances.__init__.
  rewrite WalletBalances_init_loop;
    [|apply NoDup_fst_map_to_list|by intros; rewrite lookup_empty].
  rewrite list_to_map_to_list, (right_id_L ∅ union).
  destruct (decide (valid_keys self)) as [Hv|Hv].
  - rewrite decide_True; [done|].
    apply map_Forall_to_list in Hv.
    eapply Forall_impl; [apply Hv|]. by intros [c tb].
  - rewrite decide_False; [done|]. intros Hall. apply Hv.
    apply map_Forall_to_list.
    eapply Forall_impl; [apply Hall|]. by intros [c tb].
Qed.

(** ** WalletBalances: sums *)

Lemma add_loop_pure_lookup (combined w : gmap string (gmap N Balance.t))
    (c : string) :
  map_fold add_loop_pure combined w !! c =
    match truthy_balances (w !! c) with
    | Some tb =>
        Some (nonzero_entries (default ∅ (combined !! c))
              ∪ nonzero_entries tb)
    | None => combined !! c
    end.
Proof.
  etrans.
  - apply (map_fold_view (I := unit) add_loop_pure (λ s k _, s !! k)
      (λ _ tb _ o, if TokenBalances.__bool__ tb
                   then Some (nonzero_entries (default ∅ o)
                              ∪ nonzero_entries tb)
                   else o)) with (i := ()).
    + intros j tb s _. unfold add_loop_pure, iadd_category.
      destruct (TokenBalances.__bool__ tb); [|done].
      by rewrite lookup_insert_eq.
    + intros j tb s k' _ Hne. unfold add_loop_pure, iadd_category.
      destruct (TokenBalances.__bool__ tb); [|done].
      by rewrite lookup_insert_ne.
  - simpl. destruct (w !! c) as [tb|]; simpl; [|done].
    by destruct (TokenBalances.__bool__ tb).
Qed.

Lemma not_disjoint_truthy (x y : gmap N Balance.t) :
  ¬ disjoint_nonzero x y → TokenBalances.__bool__ y = true.
Proof.
  intros Hd. apply map_not_Forall in Hd as (k & b & Hk & Hb); [|apply _].
  apply TokenBalances_bool_true. exists k, b. split; [done|].
  destruct (Balance.__bool__ b); [done|]. by destruct Hb.
Qed.

Lemma disjoint_nonzero_falsy_l (x y : gmap N Balance.t) :
  TokenBalances.__bool__ x = false → disjoint_nonzero x y.
Proof. intros Hx k b _ _. by apply TokenBalances_falsy_nonzero. Qed.

(** The first loop of [__add__], from the empty object: only [KeyError]
    can be raised. *)
Lemma add_loop_first (w : gmap string (gmap N Balance.t)) :
  map_fold WalletBalances.add_loop (Ok ∅) w =
    if decide (accepted w)
    then Ok (map_fold add_loop_pure ∅ w)
    else Raise KeyError.
Proof.
  apply (map_fold_result
    (λ category balances, TokenBalances.__bool__ balances = true →
                          category ∈ ["assets"; "debt"]%string)
    WalletBalances.add_loop add_loop_pure KeyError).
  - done.
  - intros c tb w' Hc _ Hgood.
    assert (map_fold add_loop_pure ∅ w' !! c = None) as Hcell
      by (by rewrite add_loop_pure_lookup, Hc, lookup_empty).
    set (s := map_fold add_loop_pure ∅ w') in *.
    unfold WalletBalances.add_loop, add_loop_pure. simpl.
    destruct (TokenBalances.__bool__ tb); [|done].
    rewrite WalletBalances_iadd_item_valid by (by apply Hgood).
    rewrite Hcell. simpl.
    by rewrite decide_True by apply disjoint_nonzero_empty_l.
  - intros c tb w' _ _ Hbad. unfold WalletBalances.add_loop. simpl.
    destruct (TokenBalances.__bool__ tb) eqn:Htb; [|by destruct Hbad].
    apply WalletBalances_iadd_item_invalid. intros Hc. by apply Hbad.
Qed.

(** The second loop, over an operand whose truthy categories are all
    accepted: only [AttributeError] can be raised. *)
Lemma add_loop_second (combined w : gmap string (gmap N Balance.t)) :
  accepted w →
  map_fold WalletBalances.add_loop (Ok combined) w =
    if decide (map_Forall (λ c tb,
                 disjoint_nonzero (default ∅ (combined !! c)) tb) w)
    then Ok (map_fold add_loop_pure combined w)
    else Raise AttributeError.
Proof.
  intros Hw.
  apply (map_fold_result
    (λ c tb, disjoint_nonzero (default ∅ (combined !! c)) tb)
    WalletBalances.add_loop add_loop_pure AttributeError).
  - done.
  - intros c tb w' Hc Hsub Hgood.
    assert (map_fold add_loop_pure combined w' !! c = combined !! c)
      as Hcell by (by rewrite add_loop_pure_lookup, Hc).
    set (s := map_fold add_loop_pure combined w') in *.
    unfold WalletBalances.add_loop, add_loop_pure. simpl.
    destruct (TokenBalances.__bool__ tb) eqn:Htb; [|done].
    rewrite WalletBalances_iadd_item_valid.
    + rewrite Hcell. by rewrite decide_True.
    + apply (Hw c tb); [|done].
      eapply lookup_weaken; [|exact Hsub]. by rewrite lookup_insert_eq.
  - intros c tb w' Hc Hsub Hbad.
    assert (map_fold add_loop_pure combined w' !! c = combined !! c)
      as Hcell by (by rewrite add_loop_pure_lookup, Hc).
    set (s := map_fold add_loop_pure combined w') in *.
    unfold WalletBalances.add_loop. simpl.
    rewrite (not_disjoint_truthy _ _ Hbad).
    rewrite WalletBalances_iadd_item_valid.
    + rewrite Hcell. by rewrite decide_False.
    + apply (Hw c tb); [|by eapply not_disjoint_truthy].
      eapply lookup_weaken; [|exact Hsub]. by rewrite lookup_insert_eq.
Qed.

Lemma WalletBalances_add_eq (self other : gmap string (gmap N Balance.t)) :
  accepted self → accepted other →
  WalletBalances.__add__ self other =
    if decide (categories_disjoint self other)
    then Ok (merge add_categories self other)
    else Raise AttributeError.
Proof.
  intros Hs Ho. unfold WalletBalances.__add__. cbv zeta.
  rewrite add_loop_first, decide_True by done.
  rewrite add_loop_second by done.
  assert (∀ c, map_fold add_loop_pure ∅ self !! c
               = nonzero_entries <$> truthy_balances (self !! c)) as Hfirst.
  { intros c. rewrite add_loop_pure_lookup, lookup_empty. simpl.
    destruct (truthy_balances (self !! c)); simpl; [|done].
    by rewrite nonzero_entries_empty, (left_id_L ∅ union). }
  assert (∀ c tb,
            disjoint_nonzero
              (default ∅ (map_fold add_loop_pure ∅ self !! c)) tb
            ↔ disjoint_nonzero (default ∅ (self !! c)) tb) as Hdisj.
  { intros c tb. rewrite Hfirst.
    destruct (self !! c) as [x|]; simpl; [|done].
    destruct (TokenBalances.__bool__ x) eqn:Hx; simpl.
    - apply disjoint_nonzero_entries_l.
    - split; intros _;
        [by apply disjoint_nonzero_falsy_l|apply disjoint_nonzero_empty_l]. }
  destruct (decide (categories_disjoint self other)) as [Hd|Hd].
  - rewrite decide_True by (intros c tb Hc; apply Hdisj; by apply (Hd c)).
    f_equal. apply map_eq; intros c.
    rewrite lookup_merge, add_loop_pure_lookup, Hfirst.
    unfold add_categories.
    destruct (self !! c) as [x|], (other !! c) as [y|]; simpl; try done;
      try destruct (TokenBalances.__bool__ x);
      try destruct (TokenBalances.__bool__ y); simpl; try done;
      by rewrite ?nonzero_entries_idemp, ?nonzero_entries_empty,
                 ?(left_id_L ∅ union).
  - rewrite decide_False; [done|]. intros Hd'. apply Hd.
    intros c tb Hc. apply Hdisj. by apply (Hd' c).
Qed.

(** [self + other] for two WalletBalances.  [KeyError] is raised when
    [self] holds a truthy TokenBalances under a key other than ['assets']
    and ['debt'].  When neither operand does, the sum of the token
    balances of a category that is truthy in both raises [AttributeError]
    if they share a token with a non-zero balance; else the result holds
    the categories that are truthy in an operand, each with the non-zero
    entries of the operands, and the falsy categories are dropped. *)
Theorem WalletBalances_add_spec (self other : gmap string (gmap N Balance.t)) :
  (¬ accepted self → WalletBalances.__add__ self other = Raise KeyError)
  ∧ (accepted self → accepted other →
     WalletBalances.__add__ self other =
       if decide (categories_disjoint self other)
       then Ok (merge add_categories self other)
       else Raise AttributeError).
Proof.
  split; [|apply WalletBalances_add_eq].
  intros Hs. unfold WalletBalances.__add__. cbv zeta.
  rewrite add_loop_first, decide_False by done.
  by apply map_fold_Raise_init.
Qed.

Lemma WalletBalances_add_spec_witness :
  WalletBalances.__add__
    {["external"%string := {[TOK := Balance.mk (dec 1) (dec 2)]}]} ∅
  = Raise KeyError
  ∧ WalletBalances.__add__
      {["assets"%string := {[TOK := Balance.mk (dec 1) (dec 2)]}]}
      {["assets"%string := {[TOK := Balance.mk (dec 3) (dec 4)]}]}
    = Raise AttributeError
  ∧ WalletBalances.__add__
      {["assets"%string := {[TOK := Balance.mk (dec 1) (dec 2)]};
        "debt"%string := ∅]}
      {["assets"%string := {[TOK2 := Balance.mk (dec 3) (dec 4)]}]}
    = Ok {["assets"%string :=
             {[TOK := Balance.mk (dec 1) (dec 2);
               TOK2 := Balance.mk (dec 3) (dec 4)]}]}.
Proof.
  split; [|split].
  - apply (WalletBalances_add_spec
             {["external"%string := {[TOK := Balance.mk (dec 1) (dec 2)]}]} ∅).
    compute_done.
  - destruct (WalletBalances_add_spec
                {["assets"%string := {[TOK := Balance.mk (dec 1) (dec 2)]}]}
                {["assets"%string := {[TOK := Balance.mk (dec 3) (dec 4)]}]})
      as [_ Hadd].
    rewrite Hadd by compute_done. vm_compute. reflexivity.
  - destruct (WalletBalances_add_spec
                {["assets"%string := {[TOK := Balance.mk (dec 1) (dec 2)]};
                  "debt"%string := ∅]}
                {["assets"%string := {[TOK2 := Balance.mk (dec 3) (dec 4)]}]})
      as [_ Hadd].
    rewrite Hadd by compute_done. vm_compute. reflexivity.
Defined.

Lemma categories_disjoint_sym (self other : gmap string (gmap N Balance.t)) :
  categories_disjoint self other → categories_disjoint other self.
Proof.
  intros Hd c x Hx. destruct (other !! c) as [y|] eqn:Hy; simpl.
  - apply disjoint_nonzero_sym. specialize (Hd c y Hy). simpl in Hd.
    by rewrite Hx in Hd.
  - apply disjoint_nonzero_empty_l.
Qed.

Lemma add_categories_comm (a b : option (gmap N Balance.t)) :
  disjoint_nonzero (default ∅ a) (default ∅ b) →
  add_categories a b = add_categories b a.
Proof.
  intros Hd. unfold add_categories.
  destruct a as [x|], b as [y|]; simpl in *; try done;
    try destruct (TokenBalances.__bool__ x);
    try destruct (TokenBalances.__bool__ y); simpl; try done.
  f_equal. by apply nonzero_union_comm.
Qed.

(** [self + other] and [other + self] come to the same for two
    WalletBalances without a truthy TokenBalances under a rejected key:
    both raise [AttributeError], or both return the same object. *)
Theorem WalletBalances_add_comm (self other : gmap string (gmap N Balance.t)) :
  accepted self → accepted other →
  WalletBalances.__add__ self other = WalletBalances.__add__ other self.
Proof.
  intros Hs Ho. rewrite !WalletBalances_add_eq by done.
  destruct (decide (categories_disjoint self other)) as [Hd|Hd].
  - rewrite decide_True by (by apply categories_disjoint_sym). f_equal.
    apply map_eq; intros c. rewrite !lookup_merge.
    destruct (self !! c) as [x|] eqn:Hx, (other !! c) as [y|] eqn:Hy;
      simpl; try done.
    apply add_categories_comm. simpl.
    specialize (Hd c y Hy). simpl in Hd. by rewrite Hx in Hd.
  - rewrite decide_False; [done|].
    intros Hd'. by apply Hd, categories_disjoint_sym.
Qed.

Lemma WalletBalances_add_comm_witness :
  WalletBalances.__add__
    {["assets"%string := {[TOK := Balance.mk (dec 1) (dec 2)]}]}
    {["assets"%string := {[TOK2 := Balance.mk (dec 3) (dec 4)]};
      "debt"%string := {[TOK := Balance.mk (dec 5) (dec 6)]}]}
  = WalletBalances.__add__
      {["assets"%string := {[TOK2 := Balance.mk (dec 3) (dec 4)]};
        "debt"%string := {[TOK := Balance.mk (dec 5) (dec 6)]}]}
      {["assets"%string := {[TOK := Balance.mk (dec 1) (dec 2)]}]}.
Proof. apply WalletBalances_add_comm; compute_done. Defined.

(** ** WalletBalances: the net value *)

Lemma with_category_lookup (self : gmap string (gmap N Balance.t))
    (c c' : string) :
  with_category self c !! c' =
    if decide (c = c') then Some (default ∅ (self !! c)) else self !! c'.
Proof.
  unfold with_category. destruct (self !! c) as [tb|] eqn:Hc.
  - case_decide; by subst.
  - case_decide; subst; [by rewrite lookup_insert_eq|].
    by rewrite lookup_insert_ne.
Qed.

Lemma with_category_bool (self : gmap string (gmap N Balance.t)) (c : string) :
  WalletBalances.__bool__ (with_category self c) = WalletBalances.__bool__ self.
Proof.
  unfold with_category. destruct (self !! c) as [tb|] eqn:Hc; [done|].
  by rewrite WalletBalances_bool_insert.
Qed.

Lemma WalletBalances_sum_usd_eq (self : gmap string (gmap N Balance.t)) :
  WalletBalances.sum_usd self =
    Ok ((TokenBalances.sum_usd (default ∅ (self !! "assets"%string))
         - TokenBalances.sum_usd (default ∅ (self !! "debt"%string)))%Qc,
        with_category (with_category self "assets") "debt").
Proof.
  unfold WalletBalances.sum_usd, WalletBalances.assets, WalletBalances.debt.
  rewrite WalletBalances_getitem_valid by compute_done. simpl.
  rewrite WalletBalances_getitem_valid by compute_done. simpl.
  fold (with_category self "assets").
  fold (with_category (with_category self "assets") "debt").
  rewrite with_category_lookup. by rewrite decide_False.
Qed.

(** [sum_usd()] never raises, but it is not a read: afterwards ['assets']
    and ['debt'] are both keys of the object, an empty [TokenBalances()]
    stored for the one that was missing; the other entries and the truth
    value of the object are as before, and a second call returns the same
    value and changes nothing. *)
Theorem WalletBalances_sum_usd_frame (self : gmap string (gmap N Balance.t)) :
  ∃ value self',
    WalletBalances.sum_usd self = Ok (value, self')
    ∧ self' !! "assets"%string = Some (default ∅ (self !! "assets"%string))
    ∧ self' !! "debt"%string = Some (default ∅ (self !! "debt"%string))
    ∧ (∀ c, c ≠ "assets"%string → c ≠ "debt"%string → self' !! c = self !! c)
    ∧ WalletBalances.__bool__ self' = WalletBalances.__bool__ self
    ∧ WalletBalances.sum_usd self' = Ok (value, self').
Proof.
  do 2 eexists. split; [apply WalletBalances_sum_usd_eq|].
  assert (∀ c, with_category (with_category self "assets") "debt" !! c =
            if decide (c = "assets"%string ∨ c = "debt"%string)
            then Some (default ∅ (self !! c)) else self !! c) as Hl.
  { intros c. rewrite !with_category_lookup.
    destruct (decide ("debt"%string = c)) as [<-|Hd].
    - rewrite decide_False by done. by rewrite decide_True by (by right).
    - destruct (decide ("assets"%string = c)) as [<-|Ha].
      + by rewrite decide_True by (by left).
      + rewrite decide_False; [done|]. intros [->| ->]; done. }
  split; [rewrite Hl; by rewrite decide_True by (by left)|].
  split; [rewrite Hl; by rewrite decide_True by (by right)|].
  split.
  { intros c Ha Hd. rewrite Hl. rewrite decide_False; [done|].
    intros [->| ->]; done. }
  split; [by rewrite !with_category_bool|].
  rewrite WalletBalances_sum_usd_eq. f_equal. f_equal.
  - rewrite !Hl. rewrite decide_True by (by left).
    by rewrite decide_True by (by right).
  - assert (∀ (m : gmap string (gmap N Balance.t)) c,
              is_Some (m !! c) → with_category m c = m) as Hpresent.
    { intros m c [tb Hc]. unfold with_category. by rewrite Hc. }
    rewrite (Hpresent _ "assets"%string).
    + apply Hpresent. rewrite Hl. by rewrite decide_True by (by right).
    + rewrite Hl. by rewrite decide_True by (by left).
Qed.


(** ** WalletBalances: differences *)

Lemma WalletBalances_isub_item_valid (self : gmap string (gmap N Balance.t))
    (category : string) (balances : gmap N Balance.t) :
  category ∈ ["assets"; "debt"]%string →
  WalletBalances.isub_item self category balances
  = Ok (sub_loop_pure category balances (Finished self)).
Proof.
  intros Hvalid. unfold WalletBalances.isub_item, sub_loop_pure.
  rewrite WalletBalances_getitem_valid by done. simpl.
  destruct (TokenBalances.__sub__ (default ∅ (self !! category)) balances)
    as [new|]; [|done].
  unfold WalletBalances.__setitem__. rewrite validateitem_valid by done.
  simpl. destruct (self !! category); simpl; [done|].
  by rewrite insert_insert_eq.
Qed.


Lemma WalletBalances_sub_loop_Ok
    (acc : iteration (gmap string (gmap N Balance.t)))
    (other : gmap string (gmap N Balance.t)) :
  valid_keys other →
  map_fold WalletBalances.sub_loop (Ok acc) other
  = Ok (map_fold sub_loop_pure acc other).
Proof.
  intros Hvalid.
  trans (if decide (valid_keys other)
         then Ok (map_fold sub_loop_pure acc other)
         else Raise KeyError : result (iteration _));
    [|by rewrite decide_True].
  apply (map_fold_result
    (λ (category : string) (_ : gmap N Balance.t),
       category ∈ ["assets"; "debt"]%string)
    WalletBalances.sub_loop sub_loop_pure KeyError).
  - done.
  - intros c y m' _ _ Hc. unfold WalletBalances.sub_loop. simpl.
    destruct (map_fold sub_loop_pure acc m') as [s|]; [|done].
    by apply WalletBalances_isub_item_valid.
  - intros c y m' _ Hsub Hc. destruct Hc. apply (Hvalid c y).
    eapply lookup_weaken; [|exact Hsub]. by rewrite lookup_insert_eq.
Qed.

(** The loop [subtracted[category] -= balances] over [other]: it ends
    normally when no token's difference is zero. *)
Lemma sub_loop_pure_fold (subtracted other : gmap string (gmap N Balance.t)) :
  map_fold sub_loop_pure (Finished subtracted) other =
    if decide (map_Forall (λ c y,
                 map_Forall (λ _ b, Balance.__bool__ b = true)
                   (difference (default ∅ (subtracted !! c)) y)) other)
    then Finished (merge (λ a b,
                     match b with
                     | Some y => Some (difference (default ∅ a) y)
                     | None => a
                     end) subtracted other)
    else RuntimeError.
Proof.
  induction other as [|c y other Hc Hfirst IH] using map_first_key_ind.
  - rewrite map_fold_empty, decide_True by apply map_Forall_empty.
    f_equal. apply map_eq; intros c. rewrite lookup_merge, lookup_empty.
    by destruct (subtracted !! c).
  - rewrite map_fold_insert_first_key by done. rewrite IH.
    destruct (decide (map_Forall _ other)) as [Hall|Hall].
    + unfold sub_loop_pure at 1.
      rewrite lookup_merge, Hc.
      assert (diag_None (λ a b : option (gmap N Balance.t),
                 match b with
                 | Some y => Some (difference (default ∅ a) y)
                 | None => a
                 end) (subtracted !! c) None = subtracted !! c) as ->
        by (by destruct (subtracted !! c)).
      rewrite TokenBalances_sub_eq.
      destruct (decide (map_Forall (λ _ b, Balance.__bool__ b = true)
                  (difference (default ∅ (subtracted !! c)) y))) as [Hy|Hy].
      * rewrite decide_True by (by apply map_Forall_insert).
        f_equal. apply map_eq; intros c'.
        rewrite lookup_merge.
        destruct (decide (c = c')) as [<-|Hne].
        -- rewrite !lookup_insert_eq. by destruct (subtracted !! c).
        -- rewrite !lookup_insert_ne by done. by rewrite lookup_merge.
      * rewrite decide_False; [done|].
        intros Hn. apply map_Forall_insert in Hn as [? _]; done.
    + simpl. rewrite decide_False; [done|].
      intros Hn. apply map_Forall_insert in Hn as [_ ?]; done.
Qed.

Lemma pruned_truthy (tb : gmap N Balance.t) :
  map_Forall (λ _ b, Balance.__bool__ b = true) tb →
  (TokenBalances.__bool__ tb = true ↔ tb ≠ ∅).
Proof.
  intros Hnz. split.
  - intros (k & b & Hk & _)%TokenBalances_bool_true ->.
    by rewrite lookup_empty in Hk.
  - intros Hne. by apply TokenBalances_nonzero_truthy.
Qed.


Lemma WalletBalances_sub_eq (self other : gmap string (gmap N Balance.t)) :
  valid_keys self → valid_keys other →
  WalletBalances.__sub__ self other =
    Ok (if decide (map_Forall (λ _ tb, pruned tb)
                     (wallet_difference self other))
        then Finished (wallet_difference self other)
        else RuntimeError).
Proof.
  intros Hs Ho. unfold WalletBalances.__sub__.
  rewrite WalletBalances_init_dict, decide_True by done. simpl.
  rewrite WalletBalances_sub_loop_Ok by done. simpl.
  rewrite sub_loop_pure_fold.
  assert (merge (λ a b : option (gmap N Balance.t),
                   match b with
                   | Some y => Some (difference (default ∅ a) y)
                   | None => a
                   end) (nonzero_entries <$> self) other
          = wallet_difference self other) as ->.
  { apply map_eq; intros c. unfold wallet_difference.
    rewrite !lookup_merge, lookup_fmap.
    by destruct (self !! c), (other !! c). }
  assert (∀ c, wallet_difference self other !! c
               = sub_categories (self !! c) (other !! c)) as Hl.
  { intros c. unfold wallet_difference. rewrite lookup_merge.
    by destruct (self !! c), (other !! c). }
  destruct (decide (map_Forall (λ c y,
              map_Forall (λ _ b, Balance.__bool__ b = true)
                (difference (default ∅ ((nonzero_entries <$> self) !! c))
                   y)) other)) as [Hdiff|Hdiff].
  - assert (map_Forall (λ _ tb,
              map_Forall (λ _ b, Balance.__bool__ b = true) tb)
              (wallet_difference self other)) as Hnz.
    { intros c tb. rewrite Hl. specialize (Hdiff c). cbv beta in Hdiff.
      rewrite lookup_fmap in Hdiff.
      destruct (self !! c) as [x|], (other !! c) as [y|]; simpl;
        intros [= <-]; try (by apply (Hdiff y)).
      apply nonzero_entries_nonzero. }
    rewrite prune_loop_items. f_equal.
    destruct (decide (map_Forall (λ _ v, TokenBalances.__bool__ v = true)
                (wallet_difference self other))) as [Ht|Ht].
    + rewrite decide_True; [done|]. intros c tb Htb. split.
      * apply pruned_truthy; [by apply (Hnz c)|by apply (Ht c)].
      * by apply (Hnz c).
    + rewrite decide_False; [done|]. intros Hp. apply Ht.
      intros c tb Htb. destruct (Hp c tb Htb) as [Hne Hz].
      by apply pruned_truthy.
  - f_equal. rewrite decide_False; [done|]. intros Hp. apply Hdiff.
    intros c y Hy. rewrite lookup_fmap.
    assert (wallet_difference self other !! c
            = Some (difference
                      (default ∅ (nonzero_entries <$> self !! c)) y))
      as Hc.
    { rewrite Hl, Hy. by destruct (self !! c). }
    by destruct (Hp c _ Hc).
Qed.

(** A WalletBalances with an empty category, such as the ['debt'] of a
    wallet without debt, cannot be subtracted from by an operand that has
    nothing under that category either: the empty category is deleted
    during the iteration and [RuntimeError] is raised. *)
Theorem WalletBalances_sub_empty_category_raises
    (self other : gmap string (gmap N Balance.t)) (category : string) :
  valid_keys self → valid_keys other →
  self !! category = Some ∅ →
  default ∅ (other !! category) = ∅ →
  WalletBalances.__sub__ self other = Ok RuntimeError.
Proof.
  intros Hs Ho Hc Hoc. rewrite WalletBalances_sub_eq by done. f_equal.
  rewrite decide_False; [done|]. intros Hp.
  assert (wallet_difference self other !! category = Some ∅) as Hd.
  { unfold wallet_difference. rewrite lookup_merge, Hc.
    destruct (other !! category) as [y|]; simpl in *; subst; done. }
  destruct (Hp category ∅ Hd) as [Hne _]. done.
Qed.

Lemma WalletBalances_sub_empty_category_raises_witness :
  WalletBalances.__sub__
    {["assets"%string := {[TOK := Balance.mk (dec 10) (dec 100)]};
      "debt"%string := ∅]}
    {["assets"%string := {[TOK := Balance.mk (dec 4) (dec 40)]};
      "debt"%string := ∅]}
  = Ok RuntimeError.
Proof.
  apply (WalletBalances_sub_empty_category_raises _ _ "debt"%string);
    [compute_done|compute_done|reflexivity|reflexivity].
Defined.


(** ** The two inversions: what they keep, when they raise *)

(** [inverted] returns, and returns a pruned view: no category of it is
    empty, every TokenBalances in it is truthy and free of zero entries,
    and is the TokenBalances that [self] holds for the wallet and the
    category, without its zero entries. *)
Theorem inverted_pruned (p : gmap N (gmap string (gmap N Balance.t))) :
  ∃ q, PortfolioBalances.inverted p = Ok q
    ∧ (∀ label row, q !! label = Some row → row ≠ ∅)
    ∧ (∀ label wallet tb,
         lookup2 q label wallet = Some tb →
         TokenBalances.__bool__ tb = true
         ∧ map_Forall (λ _ b, Balance.__bool__ b = true) tb
         ∧ ∃ tb0, lookup2 p wallet label = Some tb0
                  ∧ tb = filter (λ kb, Balance.__bool__ kb.2 = true) tb0).
Proof.
  exists (transpose p). split; [apply inverted_transpose|]. split.
  - apply (transpose_rows_nonempty p).
  - intros label wallet tb. rewrite transpose_lookup2.
    destruct (lookup2 p wallet label) as [tb0|]; simpl; [|done].
    destruct (TokenBalances.__bool__ tb0) eqn:Htb0; [|done].
    intros [= <-]. split; [by apply nonzero_entries_truthy|].
    split; [apply nonzero_entries_nonzero|].
    by exists tb0.
Qed.

(** [invert] raises [KeyError] exactly when a truthy TokenBalances is
    stored under a label other than ['assets'] and ['debt']; a label that
    holds nothing truthy is skipped whatever it is.  When it returns, the
    result holds under wallet and label the non-zero entries of each
    truthy TokenBalances, and nothing else. *)
Theorem invert_spec (q : gmap string (gmap N (gmap N Balance.t))) :
  (accepted_labels q →
   ∃ p, PortfolioBalancesByCategory_invert.invert q = Ok p
     ∧ ∀ wallet label,
         lookup2 p wallet label =
           tb ← lookup2 q label wallet;
           if TokenBalances.__bool__ tb
           then Some (filter (λ kb, Balance.__bool__ kb.2 = true) tb)
           else None)
  ∧ (¬ accepted_labels q →
     PortfolioBalancesByCategory_invert.invert q = Raise KeyError).
Proof.
  rewrite invert_eq. split.
  - intros Hq. rewrite decide_True by done. eexists. split; [done|].
    intros wallet label. by rewrite transpose_lookup2.
  - intros Hq. by rewrite decide_False.
Qed.

Lemma invert_spec_witness :
  (∃ p, PortfolioBalancesByCategory_invert.invert
          {["external"%string := {[WALLET := ∅]};
            "debt"%string :=
              {[WALLET := {[TOK2 := Balance.mk (dec 2) (dec 20)]}]}]} = Ok p
     ∧ ∀ wallet label,
         lookup2 p wallet label =
           tb ← lookup2
                  ({["external"%string := {[WALLET := ∅]};
                     "debt"%string :=
                       {[WALLET := {[TOK2 := Balance.mk (dec 2) (dec 20)]}]}]}
                   : gmap string (gmap N (gmap N Balance.t))) label wallet;
           if TokenBalances.__bool__ tb
           then Some (filter (λ kb, Balance.__bool__ kb.2 = true) tb)
           else None)
  ∧ PortfolioBalancesByCategory_invert.invert
      {["external"%string :=
          {[WALLET := {[TOK := Balance.mk (dec 1) (dec 2)]}]}]}
    = Raise KeyError.
Proof.
  split.
  - apply (invert_spec
             {["external"%string := {[WALLET := ∅]};
               "debt"%string :=
                 {[WALLET := {[TOK2 := Balance.mk (dec 2) (dec 20)]}]}]}).
    compute_done.
  - apply (invert_spec
             {["external"%string :=
                 {[WALLET := {[TOK := Balance.mk (dec 1) (dec 2)]}]}]}).
    compute_done.
Defined.

(** The round trip from the category-first view: for a
    PortfolioBalancesByCategory [q] whose Money entries are all non-zero,
    that holds no empty dict and has no label but ['assets'] and ['debt'],
    [invert] returns, and [inverted] of what it returns returns [q]. *)
Theorem inverted_invert_roundtrip
    (q : gmap string (gmap N (gmap N Balance.t))) :
  entries_nonzero q → entries_nonempty q →
  map_Forall (λ label _, label ∈ ["assets"; "debt"]%string) q →
  ∃ p, PortfolioBalancesByCategory_invert.invert q = Ok p
       ∧ PortfolioBalances.inverted p = Ok q.
Proof.
  intros Hnz Hne Hvalid. exists (transpose q).
  split; [by apply invert_transpose|].
  rewrite inverted_transpose. f_equal. by apply transpose_transpose.
Qed.

Lemma inverted_invert_roundtrip_witness :
  ∃ p, PortfolioBalancesByCategory_invert.invert
         {["assets"%string :=
             {[WALLET := {[TOK := Balance.mk (dec 10) (dec 100)]}]};
           "debt"%string :=
             {[WALLET := {[TOK2 := Balance.mk (dec 2) (dec 20)]}]}]} = Ok p
       ∧ PortfolioBalances.inverted p
         = Ok {["assets"%string :=
                  {[WALLET := {[TOK := Balance.mk (dec 10) (dec 100)]}]};
                "debt"%string :=
                  {[WALLET := {[TOK2 := Balance.mk (dec 2) (dec 20)]}]}]}.
Proof.
  apply (inverted_invert_roundtrip
           {["assets"%string :=
               {[WALLET := {[TOK := Balance.mk (dec 10) (dec 100)]}]};
             "debt"%string :=
               {[WALLET := {[TOK2 := Balance.mk (dec 2) (dec 20)]}]}]});
    compute_done.
Defined.

(** ** The sums of the outer containers *)

(** [any(self.values())] over the truth values of the entries. *)
Lemma any_values_false `{Countable K} {V : Type} (truthy : V → bool)
    (m : gmap K V) :
  map_fold (λ _ v acc, truthy v || acc) false m = false
  ↔ map_Forall (λ _ v, truthy v = false) m.
Proof.
  induction m as [|k v m Hk Hfirst IH] using map_first_key_ind.
  - rewrite map_fold_empty. split; [intros _; apply map_Forall_empty|done].
  - rewrite map_fold_insert_first_key by done.
    rewrite map_Forall_insert by done. rewrite <-IH.
    apply orb_false_iff.
Qed.

(** A loop whose body leaves the state alone on a falsy entry and raises
    [AttributeError] on a truthy one. *)
Lemma map_fold_truthy_raises `{Countable K} {V S : Type} (truthy : V → bool)
    (f : K → V → result S → result S) (s0 : S) (m : gmap K V) :
  (∀ k v, f k v (Raise AttributeError) = Raise AttributeError) →
  (∀ k v s, truthy v = false → f k v (Ok s) = Ok s) →
  (∀ k v s, truthy v = true → f k v (Ok s) = Raise AttributeError) →
  map_fold f (Ok s0) m =
    if map_fold (λ _ v acc, truthy v || acc) false m
    then Raise AttributeError else Ok s0.
Proof.
  intros Hraise Hfalsy Htruthy.
  assert (∀ m' : gmap K V, map_fold (λ _ _ (s : S), s) s0 m' = s0) as Hid.
  { intros m'. by apply (map_fold_preserves (λ s, s = s0)). }
  trans (if decide (map_Forall (λ _ v, truthy v = false) m)
         then Ok (map_fold (λ _ _ (s : S), s) s0 m)
         else Raise AttributeError : result S).
  - apply (map_fold_result (λ (_ : K) (v : V), truthy v = false)
             f (λ _ _ s, s) AttributeError s0 m).
    + done.
    + intros k v m' _ _ Hv. rewrite Hid. by apply Hfalsy.
    + intros k v m' _ _ Hv. rewrite Hid. apply Htruthy.
      by destruct (truthy v).
  - rewrite Hid.
    destruct (map_fold (λ _ v acc, truthy v || acc) false m) eqn:Hany.
    + rewrite decide_False; [done|].
      intros Hall%any_values_false. congruence.
    + rewrite decide_True; [done|]. by apply any_values_false.
Qed.

Lemma WalletBalancesRaw_add_eq (self other : gmap N (gmap N Balance.t)) :
  WalletBalancesRaw.__add__ self other =
    if WalletBalancesRaw.__bool__ self || WalletBalancesRaw.__bool__ other
    then Raise AttributeError else Ok ∅.
Proof.
  unfold WalletBalancesRaw.__add__, WalletBalancesRaw.__bool__. cbv zeta.
  assert (∀ s m, map_fold WalletBalancesRaw.add_loop (Ok s) m =
            if map_fold (λ _ v acc, TokenBalances.__bool__ v || acc) false m
            then Raise AttributeError else Ok s) as Hloop.
  { intros s m. apply map_fold_truthy_raises; [done|..];
      intros k v s' Hv; unfold WalletBalancesRaw.add_loop; simpl;
      by rewrite Hv. }
  rewrite Hloop.
  destruct (map_fold _ false self); simpl.
  - by apply map_fold_Raise_init.
  - apply Hloop.
Qed.

(** [self + other] for two WalletBalancesRaw raises [AttributeError] as
    soon as an operand holds a truthy TokenBalances: the old entry is
    read with [combined.__getattr_nochecksum], a name the class body
    mangles to one that is not defined.  Only two falsy operands are
    added, to the empty object. *)
Theorem WalletBalancesRaw_add_raises (self other : gmap N (gmap N Balance.t)) :
  WalletBalancesRaw.__add__ self other =
    if WalletBalancesRaw.__bool__ self || WalletBalancesRaw.__bool__ other
    then Raise AttributeError else Ok ∅.
Proof. apply WalletBalancesRaw_add_eq. Qed.

(** [self + other] for two PortfolioBalances raises [AttributeError] as
    soon as an operand holds a truthy WalletBalances, for the same
    mangled name; only two falsy operands are added, to the empty
    object. *)
Theorem PortfolioBalances_add_raises
    (self other : gmap N (gmap string (gmap N Balance.t))) :
  PortfolioBalances.__add__ self other =
    if PortfolioBalances.__bool__ self || PortfolioBalances.__bool__ other
    then Raise AttributeError else Ok ∅.
Proof.
  unfold PortfolioBalances.__add__, PortfolioBalances.__bool__. cbv zeta.
  assert (∀ s m, map_fold PortfolioBalances.add_loop (Ok s) m =
            if map_fold (λ _ v acc, WalletBalances.__bool__ v || acc) false m
            then Raise AttributeError else Ok s) as Hloop.
  { intros s m. apply map_fold_truthy_raises; [done|..];
      intros k v s' Hv; unfold PortfolioBalances.add_loop; simpl;
      by rewrite Hv. }
  rewrite Hloop.
  destruct (map_fold _ false self); simpl.
  - by apply map_fold_Raise_init.
  - apply Hloop.
Qed.

(** [self + other] for two PortfolioBalancesByCategory raises
    [AttributeError] as soon as an operand holds a truthy
    WalletBalancesRaw: [combined[protocol] += balances] is a sum of two
    WalletBalancesRaw with a truthy operand.  Only two falsy operands are
    added, to the empty object. *)
Theorem PortfolioBalancesByCategory_add_raises
    (self other : gmap string (gmap N (gmap N Balance.t))) :
  PortfolioBalancesByCategory.__add__ self other =
    if PortfolioBalancesByCategory.__bool__ self
       || PortfolioBalancesByCategory.__bool__ other
    then Raise AttributeError else Ok ∅.
Proof.
  unfold PortfolioBalancesByCategory.__add__,
    PortfolioBalancesByCategory.__bool__. cbv zeta.
  assert (∀ s m, map_fold PortfolioBalancesByCategory.add_loop (Ok s) m =
            if map_fold (λ _ v acc, WalletBalancesRaw.__bool__ v || acc)
                 false m
            then Raise AttributeError else Ok s) as Hloop.
  { intros s m. apply map_fold_truthy_raises; [done|..];
      intros k v s' Hv; unfold PortfolioBalancesByCategory.add_loop; simpl;
      rewrite Hv; [done|].
    unfold PortfolioBalancesByCategory.iadd_item.
    destruct (PortfolioBalancesByCategory.__getitem__ s' k) as [old s1].
    rewrite WalletBalancesRaw_add_eq, Hv. by rewrite orb_true_r. }
  rewrite Hloop.
  destruct (map_fold _ false self); simpl.
  - by apply map_fold_Raise_init.
  - apply Hloop.
Qed.

(** * Further properties of address.py *)

(** ** The native balance *)

(** [round(self, 18)] on a coefficient within the context precision
    returns, with the exponent -18, when the number is zero or below
    10^10 in magnitude. *)
Lemma round_18_Ok (self : Decimal.t) :
  Decimal.ndigits (Decimal.coef self) ≤ Decimal.prec →
  Decimal.coef self = 0 ∨ Decimal.adjusted self < 10 →
  ∃ value, Decimal.__round__ self 18 = Ok value ∧ Decimal.exp value = -18.
Proof.
  unfold Decimal.__round__, Decimal.quantize, Decimal.adjusted, Decimal.prec.
  destruct self as [c x]. simpl. intros Hnd Hsmall.
  change (- (18)) with (-18).
  destruct (Z.eqb_spec c 0) as [->|Hc]; [by eexists|].
  destruct Hsmall as [|Hadj]; [done|].
  destruct (Z.ltb_spec 28 (x + Decimal.ndigits c - 1 - -18 + 1)) as [Ha|Ha];
    [lia|].
  destruct (ndigits_spec c Hc) as (Hr & Hlo & Hhi).
  assert (Decimal.exp (Decimal._rescale (Decimal.mk c x) (-18)) = -18) as Hexp.
  { unfold Decimal._rescale. simpl.
    destruct (Z.eqb_spec c 0); [done|]. by destruct (-18 <=? x). }
  assert (Decimal.ndigits
            (Decimal.coef (Decimal._rescale (Decimal.mk c x) (-18))) ≤ 28)
    as Hans.
  { unfold Decimal._rescale. simpl.
    destruct (Z.eqb_spec c 0) as [|_]; [done|].
    destruct (Z.leb_spec (-18) x) as [Hle|Hgt]; simpl.
    - apply ndigits_le; [lia|]. rewrite Z.abs_mul.
      rewrite (Z.abs_eq (10 ^ (x - -18))) by (apply Z.pow_nonneg; lia).
      assert (10 ^ Decimal.ndigits c * 10 ^ (x - -18) ≤ 10 ^ 28).
      { rewrite <-Z.pow_add_r by lia. apply Z.pow_le_mono_r; lia. }
      assert (0 < 10 ^ (x - -18)) by (apply Z.pow_pos_nonneg; lia).
      nia.
    - apply ndigits_le; [lia|].
      pose proof (round_half_even_bound c (-18 - x) ltac:(lia)) as Hbd.
      assert (Z.abs c < 10 ^ 28) as Hc28.
      { eapply Z.lt_le_trans; [exact Hhi|]. apply Z.pow_le_mono_r; lia. }
      assert (Z.abs c / 10 ^ (-18 - x) < 10 ^ 27); [|lia].
      apply Z.div_lt_upper_bound; [apply Z.pow_pos_nonneg; lia|].
      assert (10 ^ 1 ≤ 10 ^ (-18 - x)) by (apply Z.pow_le_mono_r; lia).
      change (10 ^ 28) with (10 ^ 1 * 10 ^ 27) in Hc28.
      nia. }
  destruct (Z.ltb_spec 28
    (Decimal.ndigits (Decimal.coef (Decimal._rescale (Decimal.mk c x) (-18)))))
    as [Hb|Hb]; [lia|].
  eexists. split; [done|].
  destruct (Decimal._rescale (Decimal.mk c x) (-18)) as [c' x'].
  simpl in *. subst x'. unfold Decimal._fix, Decimal.prec. simpl.
  destruct (c' =? 0); [done|].
  destruct (Z.ltb_spec (-18) (Decimal.ndigits c' + -18 - 28)); [lia|done].
Qed.

(** [round(self, 18)] raises [InvalidOperation] on every number of
    magnitude 10^10 or more. *)
Lemma round_18_Raise (self : Decimal.t) :
  Decimal.coef self ≠ 0 → 10 ≤ Decimal.adjusted self →
  Decimal.__round__ self 18 = Raise InvalidOperation.
Proof.
  unfold Decimal.__round__, Decimal.quantize, Decimal.adjusted, Decimal.prec.
  destruct self as [c x]. simpl. intros Hc Hadj.
  change (- (18)) with (-18).
  destruct (Z.eqb_spec c 0) as [|_]; [done|].
  destruct (Z.ltb_spec 28 (x + Decimal.ndigits c - 1 - -18 + 1)) as [Ha|Ha];
    [done|lia].
Qed.

(** [adjusted()] is the position of the leading digit: a non-zero number
    has [adjusted() >= 10] exactly when its magnitude is 10^10 or more. *)
Lemma adjusted_magnitude (self : Decimal.t) :
  Decimal.coef self ≠ 0 →
  (10 ≤ Decimal.adjusted self ↔
   10 ^ 10 * 10 ^ Z.max 0 (- Decimal.exp self)
   ≤ Z.abs (Decimal.coef self) * 10 ^ Z.max 0 (Decimal.exp self)).
Proof.
  destruct self as [c x]. unfold Decimal.adjusted. simpl. intros Hc.
  destruct (ndigits_spec c Hc) as (Hr & Hlo & Hhi).
  set (nd := Decimal.ndigits c) in *.
  destruct (Z.le_gt_cases 0 x) as [Hx|Hx].
  - rewrite (Z.max_l 0 (- x)), (Z.max_r 0 x) by lia.
    change (10 ^ 0) with 1. rewrite Z.mul_1_r. split.
    + intros Hadj.
      assert (10 ^ 10 ≤ 10 ^ (nd - 1) * 10 ^ x).
      { rewrite <-Z.pow_add_r by lia. apply Z.pow_le_mono_r; lia. }
      assert (0 < 10 ^ x) by (apply Z.pow_pos_nonneg; lia). nia.
    + intros Hm. destruct (Z.le_gt_cases 10 (x + nd - 1)) as [|Hlt]; [done|].
      assert (10 ^ nd * 10 ^ x ≤ 10 ^ 10).
      { rewrite <-Z.pow_add_r by lia. apply Z.pow_le_mono_r; lia. }
      assert (0 < 10 ^ x) by (apply Z.pow_pos_nonneg; lia). nia.
  - rewrite (Z.max_r 0 (- x)), (Z.max_l 0 x) by lia.
    change (10 ^ 0) with 1. rewrite Z.mul_1_r.
    rewrite <-Z.pow_add_r by lia. split.
    + intros Hadj.
      assert (10 ^ (10 + - x) ≤ 10 ^ (nd - 1))
        by (apply Z.pow_le_mono_r; lia). lia.
    + intros Hm. destruct (Z.le_gt_cases 10 (x + nd - 1)) as [|Hlt]; [done|].
      assert (10 ^ nd ≤ 10 ^ (10 + - x)) by (apply Z.pow_le_mono_r; lia).
      lia.
Qed.

(** [_eth_balance_async] with a price: the call returns, with a value of
    18 decimal places, when the product of balance and price is zero or
    below 10^10; when the product is 10^10 or more, [round(..., 18)]
    raises [InvalidOperation] and the call raises it too. *)
Theorem eth_balance_async_threshold (balance price : Decimal.t) :
  let product := Decimal.__mul__ balance price in
  (Decimal.coef product = 0 ∨ Decimal.adjusted product < 10 →
   ∃ value, Decimal.__round__ product 18 = Ok value
     ∧ Decimal.exp value = -18
     ∧ _eth_balance_async balance (Some price)
       = Ok (Balance.mk (Decimal.to_Qc balance) (Decimal.to_Qc value)))
  ∧ (Decimal.coef product ≠ 0 →
     (10 ≤ Decimal.adjusted product ↔
      10 ^ 10 * 10 ^ Z.max 0 (- Decimal.exp product)
      ≤ Z.abs (Decimal.coef product) * 10 ^ Z.max 0 (Decimal.exp product)))
  ∧ (Decimal.coef product ≠ 0 ∧ 10 ≤ Decimal.adjusted product →
     _eth_balance_async balance (Some price) = Raise InvalidOperation).
Proof.
  cbv zeta. split; [|split].
  - intros Hsmall.
    destruct (round_18_Ok (Decimal.__mul__ balance price))
      as (value & Hround & Hexp); [apply fix_ndigits|done|].
    exists value. split; [done|]. split; [done|].
    unfold _eth_balance_async. simpl. by rewrite Hround.
  - apply adjusted_magnitude.
  - intros [Hc Hadj]. unfold _eth_balance_async. simpl.
    by rewrite round_18_Raise.
Qed.

Lemma eth_balance_async_threshold_witness :
  (∃ value,
     Decimal.__round__ (Decimal.__mul__ (Decimal.mk 15 (-1)) (Decimal.of_Z 2000))
       18 = Ok value
     ∧ Decimal.exp value = -18
     ∧ _eth_balance_async (Decimal.mk 15 (-1)) (Some (Decimal.of_Z 2000))
       = Ok (Balance.mk (Decimal.to_Qc (Decimal.mk 15 (-1)))
               (Decimal.to_Qc value)))
  ∧ _eth_balance_async (Decimal.of_Z 5000000) (Some (Decimal.of_Z 2000))
    = Raise InvalidOperation.
Proof.
  split.
  - apply (eth_balance_async_threshold (Decimal.mk 15 (-1)) (Decimal.of_Z 2000)).
    right. vm_compute. reflexivity.
  - apply (eth_balance_async_threshold (Decimal.of_Z 5000000)
             (Decimal.of_Z 2000)).
    split; [vm_compute; discriminate|vm_compute; discriminate].
Defined.


(** ** The token balances *)

Lemma mapM_result_length {A B : Type} (f : A → result B) (l : list A)
    (values : list B) :
  mapM f l = Ok values → length values = length l.
Proof.
  revert values. induction l as [|a l IH]; intros values; simpl.
  - by intros [= <-].
  - destruct (f a) as [b|e]; simpl; [|done].
    destruct (mapM f l) as [bs|e]; simpl; [|done].
    intros [= <-]. simpl. f_equal. by apply IH.
Qed.

(** When [_token_balances_async] returns, the keys of what it returns are
    the tokens of the ledger's list: a token is a key be its balance zero
    or its price unknown, and nothing else is. *)
Theorem token_balances_async_keys (tokens : list N)
    (token_balances : list Decimal.t)
    (token_prices : list (option Decimal.t))
    (balances : gmap N Balance.t) :
  length token_balances = length tokens →
  length token_prices = length tokens →
  _token_balances_async tokens token_balances token_prices = Ok balances →
  ∀ token, is_Some (balances !! token) ↔ token ∈ tokens.
Proof.
  intros Hlb Hlp. unfold _token_balances_async.
  destruct (mapM _ (zip token_balances token_prices)) as [values|e] eqn:Hm;
    simpl; [|done].
  apply mapM_result_length in Hm.
  rewrite length_zip, Hlb, Hlp, Nat.min_id in Hm.
  intros [= <-] token. rewrite TokenBalances_init_entries.
  assert (seed_entries token (zip tokens values) ≠ [] ↔ token ∈ tokens)
    as <-.
  { rewrite seed_entries_nil. by rewrite fst_zip by lia. }
  by destruct (seed_entries token (zip tokens values)); split.
Qed.

Lemma token_balances_async_keys_witness :
  is_Some (({[TOK := Balance.mk (dec 3) (dec 0);
              TOK2 := Balance.mk (dec 0) (dec 0)]} : gmap N Balance.t)
           !! TOK2)
  ↔ TOK2 ∈ [TOK; TOK2].
Proof.
  apply (token_balances_async_keys [TOK; TOK2]
           [Decimal.of_Z 3; Decimal.of_Z 0] [None; Some (Decimal.of_Z 2)]);
    [reflexivity|reflexivity|vm_compute; reflexivity].
Defined.
